(** * A shallow embedding of [codebase/data/datamodule.py]

    The module is a configuration wrapper: a constructor that validates its
    parameters and builds three transform chains, a name dispatch that selects
    dataset constructors, three data-loader factories and one tensor crop.
    Calls into torchvision and torch are modelled as the call that is made
    (constructor and keyword arguments). The dataset constructors are taken
    to succeed (the files are in place); what [DataLoader] raises on its
    arguments is a parameter of the model, [DataLoader_raises], and
    [torch_DataLoader_checks] gives torch's argument checks.

    The float arithmetic of [setup] ([len(ds) * train_val_split], line 128)
    is IEEE binary64, as in Python: [Floats] of the Standard Library. The
    division of [__init__] (line 52) is taken exactly, in [Q]. [int(x)] is
    truncation towards zero. *)

From Stdlib Require Import ZArith QArith Qround Qpower List Ascii String Lia Floats.
From Stdlib Require Uint63.
From stdpp Require Import gmap strings list pretty.

Open Scope Z_scope.

(** ** Python values used by the module *)

(** Exceptions the module's own statements can raise. *)
Inductive exn :=
| AssertionError (msg : string)
| TypeError (msg : string)
| AttributeError (attr : string)
| KeyError (key : string)
| ValueError (msg : string).

(** [data_dir : Union[str, Path]]. *)
Inductive path_like :=
| PStr (s : string)
| PPath (s : string).

(** Whether a path string ends with the separator, as the root does. *)
Fixpoint ends_with_sep (s : string) : bool :=
  match s with
  | EmptyString => false
  | String c EmptyString => Ascii.eqb c "/"%char
  | String _ s' => ends_with_sep s'
  end.

(** [str(path / child)] from [str(path)], for a relative [child], as
    [pathlib] writes it: the current directory "." disappears, and a
    separator is added unless the path ends with one. *)
Definition path_join (s child : string) : string :=
  if (s =? ".")%string then child
  else if ends_with_sep s then s +:+ child
  else s +:+ "/" +:+ child.

(** [self.data_dir / "LSUN"]: [Path.__truediv__] appends a component, [str]
    has no [/]. A [PPath] carries [str(path)]. *)
Definition path_div (p : path_like) (child : string) : exn + path_like :=
  match p with
  | PPath s => inr (PPath (path_join s child))
  | PStr _ => inl (TypeError "unsupported operand type(s) for /: 'str' and 'str'")
  end.

(** [int(q)] on an exact value: truncation towards zero. *)
Definition py_int (q : Q) : Z := Z.quot (Qnum q) (Z.pos (Qden q)).

(** [a / b] on two [int]s, in exact arithmetic. *)
Definition py_truediv (a b : Z) : Q := (inject_Z a / inject_Z b)%Q.

(** [float(n)] for the result of [len]: an [int] in [0, sys.maxsize], that
    is below 2^63, converted with rounding to nearest even. *)
Definition float_of_int (n : Z) : float := of_uint63 (Uint63.of_Z n).

(** The integer part of a float, towards zero; 0 for a NaN or an infinity. *)
Definition SF2Z (f : spec_float) : Z :=
  match f with
  | S754_finite s m e => cond_Zopp s (Z.shiftl (Z.pos m) e)
  | _ => 0
  end.

(** [int(x)] on a finite float. (On a NaN or an infinity Python raises;
    the product of a length and a fraction in [0, 1] is finite.) *)
Definition py_int_float (f : float) : Z := SF2Z (Prim2SF f).



(** [[x] * n]: list repetition, empty for [n <= 0]. *)
Definition py_list_mul {A} (x : A) (n : Z) : list A := replicate (Z.to_nat n) x.

(** ** Transforms *)

Inductive transform :=
| ToTensor
| Normalize (mean std : list Q)
| CenterCropMinXY
| Resize (size : Z) (antialias : bool)
| RandomHorizontalFlip (p : Q).

(** [transforms.Compose([...])] *)
Definition Compose := list transform.

(** The class of a transform, without its parameters. *)
Inductive transform_kind :=
| KToTensor | KNormalize | KCenterCropMinXY | KResize | KRandomHorizontalFlip.

Definition kind_of (t : transform) : transform_kind :=
  match t with
  | ToTensor => KToTensor
  | Normalize _ _ => KNormalize
  | CenterCropMinXY => KCenterCropMinXY
  | Resize _ _ => KResize
  | RandomHorizontalFlip _ => KRandomHorizontalFlip
  end.

(** ** Datasets

    A dataset value records the constructor call that produced it; a keyword
    the call does not pass is [None]. *)
Inductive dataset :=
| MNIST (root : path_like) (train : bool)
        (transform : option Compose) (download : option bool)
| LSUN (root : path_like) (classes : list string) (transform : option Compose)
| CelebA (root : path_like) (split : string) (target_type : string)
         (transform : option Compose) (download : option bool)
| Flowers102 (root : path_like) (split : string)
             (transform : option Compose) (download : option bool)
| SEN12MSCR (root : path_like) (split : string) (transform : option Compose)
| Subset (base : dataset) (part : nat) (lengths : list Z).

(** [random_split(ds, lengths)]: one [Subset] of [ds] per requested length;
    part [i] is the [i]-th block of one random permutation of the indices.
    The call is recorded with the lengths it was given. ([random_split]
    checks that they sum to [len(ds)], which the two lengths [setup] passes
    do.) *)
Definition random_split (ds : dataset) (lengths : list Z) : list dataset :=
  imap (fun i _ => Subset ds i lengths) lengths.

(** [DataLoader(dataset, batch_size=..., ...)] *)
Record DataLoader := mkDataLoader {
  dl_dataset : dataset;
  dl_batch_size : Z;
  dl_num_workers : Z;
  dl_pin_memory : bool;
  dl_persistent_workers : bool;
  dl_shuffle : option bool
}.

(** ** The module object *)

Record DataModule := mkDataModule {
  name : string;
  data_dir : path_like;
  img_size : Z;
  img_channels : Z;
  batch_size : Z;
  num_workers : Z;
  pin_memory : bool;
  persistent_workers : bool;
  train_val_split : float;
  download : bool;
  transforms : gmap string Compose;
  train_dataset : option dataset;
  val_dataset : option dataset;
  test_dataset : option dataset
}.

Definition set_transforms (t : gmap string Compose) (d : DataModule) : DataModule :=
  mkDataModule (name d) (data_dir d) (img_size d) (img_channels d) (batch_size d)
    (num_workers d) (pin_memory d) (persistent_workers d) (train_val_split d)
    (download d) t (train_dataset d) (val_dataset d) (test_dataset d).

Definition set_train_dataset (x : dataset) (d : DataModule) : DataModule :=
  mkDataModule (name d) (data_dir d) (img_size d) (img_channels d) (batch_size d)
    (num_workers d) (pin_memory d) (persistent_workers d) (train_val_split d)
    (download d) (transforms d) (Some x) (val_dataset d) (test_dataset d).

Definition set_val_dataset (x : dataset) (d : DataModule) : DataModule :=
  mkDataModule (name d) (data_dir d) (img_size d) (img_channels d) (batch_size d)
    (num_workers d) (pin_memory d) (persistent_workers d) (train_val_split d)
    (download d) (transforms d) (train_dataset d) (Some x) (test_dataset d).

Definition set_test_dataset (x : dataset) (d : DataModule) : DataModule :=
  mkDataModule (name d) (data_dir d) (img_size d) (img_channels d) (batch_size d)
    (num_workers d) (pin_memory d) (persistent_workers d) (train_val_split d)
    (download d) (transforms d) (train_dataset d) (val_dataset d) (Some x).

(** What the methods run in: the object, and the dataset constructors called
    so far (oldest first). *)
Record world := mkWorld {
  self : DataModule;
  constructed : list dataset
}.

(** What the module reads from outside itself. *)
Record env := mkEnv {
  cuda_device_count : Z;          (* torch.cuda.device_count() *)
  dataset_len : dataset -> Z;     (* len(ds) *)
  DataLoader_raises : DataLoader -> option exn
                                  (* what DataLoader(...) raises, if anything *)
}.

(** ** State and exception monad

    A raised exception keeps the state reached so far, as an attribute
    assigned before a [raise] stays assigned. *)
Definition M (A : Type) : Type := world -> (exn + A) * world.

#[global] Instance M_ret : MRet M := fun A x w => (inr x, w).
#[global] Instance M_bind : MBind M := fun A B f m w =>
  match m w with
  | (inr x, w') => f x w'
  | (inl e, w') => (inl e, w')
  end.

Definition raise {A} (e : exn) : M A := fun w => (inl e, w).
Definition get_self : M DataModule := fun w => (inr (self w), w).
Definition modify_self (f : DataModule -> DataModule) : M unit :=
  fun w => (inr tt, mkWorld (f (self w)) (constructed w)).
Definition lift {A} (r : exn + A) : M A := fun w => (r, w).

(** Calling a dataset constructor: the call is recorded and taken to
    succeed. (A constructor raises when its files are missing; no property
    below is about that.) *)
Definition construct (d : dataset) : M dataset :=
  fun w => (inr d, mkWorld (self w) (constructed w ++ [d])).

(** [assert c, msg] *)
Definition py_assert (c : bool) (msg : string) : M unit :=
  if c then mret tt else raise (AssertionError msg).

(** [d[k]] on a dict *)
Definition getitem {V} (d : gmap string V) (k : string) : M V :=
  match d !! k with
  | Some v => mret v
  | None => raise (KeyError k)
  end.

(** [self.attr] for an attribute that may not have been assigned *)
Definition getattr {V} (o : option V) (attr : string) : M V :=
  match o with
  | Some v => mret v
  | None => raise (AttributeError attr)
  end.

(** [for x in xs: body(x)] *)
Fixpoint for_each {A} (xs : list A) (body : A -> M unit) : M unit :=
  match xs with
  | [] => mret tt
  | x :: xs' => _ ← body x; for_each xs' body
  end.

(** ** [DataModule] *)

(** [sanity_check] *)
Definition sanity_check : M unit :=
  s ← get_self;
  if (name s =? "MNIST")%string then
    py_assert (img_channels s =? 1) "MNIST dataset supports `img_channels=1`."
  else if (name s =? "SEN12MSCR")%string then
    py_assert (img_channels s =? 2) "SEN12MSCR dataset supports `img_channels=3`."
  else
    py_assert (img_channels s =? 3) (name s +:+ " dataset supports `img_channels=3`.").

(** The three chains of [self.transforms]. *)
Definition train_chain (channels size : Z) : Compose :=
  [ ToTensor;
    Normalize (py_list_mul (1 # 2)%Q channels) (py_list_mul (1 # 2)%Q channels);
    CenterCropMinXY;
    Resize size true;
    RandomHorizontalFlip (1 # 2)%Q ].

Definition val_chain (channels size : Z) : Compose :=
  [ ToTensor;
    Normalize (py_list_mul (1 # 2)%Q channels) (py_list_mul (1 # 2)%Q channels);
    CenterCropMinXY;
    Resize size true ].

Definition test_chain (channels size : Z) : Compose :=
  [ ToTensor;
    Normalize (py_list_mul (1 # 2)%Q channels) (py_list_mul (1 # 2)%Q channels);
    CenterCropMinXY;
    Resize size true ].

(** Constructor arguments. *)
Record init_args := mkArgs {
  a_name : string;
  a_img_size : Z;
  a_img_channels : Z;
  a_data_dir : path_like;
  a_batch_size : Z;
  a_num_workers : Z;
  a_pin_memory : bool;
  a_persistent_workers : bool;
  a_train_val_split : float;
  a_download : bool
}.

(** [int(batch_size / (device_count() if device_count() > 1 else 1))], the
    quotient taken exactly. *)
Definition effective_batch_size (e : env) (b : Z) : Z :=
  py_int (py_truediv b (if cuda_device_count e >? 1 then cuda_device_count e else 1)).

(** The body of [__init__], on the object under construction. *)
Definition init_body : M unit :=
  _ ← sanity_check;
  s ← get_self;
  modify_self (set_transforms
    (<["train" := train_chain (img_channels s) (img_size s)]>
     (<["val" := val_chain (img_channels s) (img_size s)]>
      (<["test" := test_chain (img_channels s) (img_size s)]> ∅)))).

(** [DataModule(...)]: the attributes assigned before [sanity_check], then
    the body; the object is returned when no exception was raised. *)
Definition __init__ (e : env) (a : init_args) : exn + DataModule :=
  let obj :=
    mkDataModule (a_name a) (a_data_dir a) (a_img_size a) (a_img_channels a)
      (effective_batch_size e (a_batch_size a))
      (a_num_workers a) (a_pin_memory a) (a_persistent_workers a)
      (a_train_val_split a) (a_download a) ∅ None None None in
  match init_body (mkWorld obj []) with
  | (inr _, w) => inr (self w)
  | (inl err, _) => inl err
  end.

(** [prepare_data] *)
Definition prepare_data : M unit :=
  s ← get_self;
  if (name s =? "MNIST")%string then
    _ ← construct (MNIST (data_dir s) true None (Some (download s)));
    _ ← construct (MNIST (data_dir s) false None (Some (download s)));
    mret tt
  else if (name s =? "CelebA")%string then
    for_each ["train"; "valid"; "test"]%string (fun split =>
      _ ← construct (CelebA (data_dir s) split "attr" None (Some (download s)));
      mret tt)
  else if (name s =? "Flowers102")%string then
    for_each ["train"; "val"; "test"]%string (fun split =>
      _ ← construct (Flowers102 (data_dir s) split None (Some (download s)));
      mret tt)
  else
    mret tt.

(** [setup]; the [stage] argument is not read. *)
Definition setup (e : env) (stage : option string) : M unit :=
  s ← get_self;
  if (name s =? "MNIST")%string then
    t ← getitem (transforms s) "train";
    full_train_dataset ← construct (MNIST (data_dir s) true (Some t) None);
    let num_train :=
      py_int_float
        (float_of_int (dataset_len e full_train_dataset) * train_val_split s)%float in
    let num_val := dataset_len e full_train_dataset - num_train in
    match random_split full_train_dataset [num_train; num_val] with
    | [tr; va] =>
        _ ← modify_self (set_train_dataset tr);
        _ ← modify_self (set_val_dataset va);
        t ← getitem (transforms s) "test";
        d ← construct (MNIST (data_dir s) false (Some t) None);
        modify_self (set_test_dataset d)
    | _ => raise (ValueError "not enough values to unpack")
    end
  else if (name s =? "LSUN")%string then
    let classes := ["bedroom"]%string in
    let train_classes := (fun sub_class => sub_class +:+ "_train") <$> classes in
    let val_classes := (fun sub_class => sub_class +:+ "_val") <$> classes in
    let test_classes := (fun sub_class => sub_class +:+ "_val") <$> classes in
    r ← lift (path_div (data_dir s) "LSUN");
    t ← getitem (transforms s) "train";
    d ← construct (LSUN r train_classes (Some t));
    _ ← modify_self (set_train_dataset d);
    r ← lift (path_div (data_dir s) "LSUN");
    t ← getitem (transforms s) "val";
    d ← construct (LSUN r val_classes (Some t));
    _ ← modify_self (set_val_dataset d);
    r ← lift (path_div (data_dir s) "LSUN");
    t ← getitem (transforms s) "test";
    d ← construct (LSUN r test_classes (Some t));
    modify_self (set_test_dataset d)
  else if (name s =? "CelebA")%string then
    t ← getitem (transforms s) "train";
    d ← construct (CelebA (data_dir s) "train" "attr" (Some t) None);
    _ ← modify_self (set_train_dataset d);
    t ← getitem (transforms s) "val";
    d ← construct (CelebA (data_dir s) "valid" "attr" (Some t) None);
    _ ← modify_self (set_val_dataset d);
    t ← getitem (transforms s) "test";
    d ← construct (CelebA (data_dir s) "test" "attr" (Some t) None);
    modify_self (set_test_dataset d)
  else if (name s =? "Flowers102")%string then
    t ← getitem (transforms s) "train";
    d ← construct (Flowers102 (data_dir s) "train" (Some t) None);
    _ ← modify_self (set_train_dataset d);
    t ← getitem (transforms s) "val";
    d ← construct (Flowers102 (data_dir s) "val" (Some t) None);
    _ ← modify_self (set_val_dataset d);
    t ← getitem (transforms s) "test";
    d ← construct (Flowers102 (data_dir s) "test" (Some t) None);
    modify_self (set_test_dataset d)
  else if (name s =? "SEN12MSCR")%string then
    t ← getitem (transforms s) "train";
    d ← construct (SEN12MSCR (data_dir s) "train" (Some t));
    _ ← modify_self (set_train_dataset d);
    t ← getitem (transforms s) "val";
    d ← construct (SEN12MSCR (data_dir s) "val" (Some t));
    _ ← modify_self (set_val_dataset d);
    t ← getitem (transforms s) "test";
    d ← construct (SEN12MSCR (data_dir s) "test" (Some t));
    modify_self (set_test_dataset d)
  else
    mret tt.

(** [DataLoader(...)]: the arguments are evaluated first, then the
    constructor runs and may reject them. *)
Definition new_DataLoader (e : env) (dl : DataLoader) : M DataLoader :=
  match DataLoader_raises e dl with
  | Some err => raise err
  | None => mret dl
  end.

(** [train_dataloader], [val_dataloader], [test_dataloader] *)
Definition train_dataloader (e : env) : M DataLoader :=
  s ← get_self;
  d ← getattr (train_dataset s) "train_dataset";
  new_DataLoader e
    (mkDataLoader d (batch_size s) (num_workers s) (pin_memory s)
       (persistent_workers s) (Some true)).

Definition val_dataloader (e : env) : M DataLoader :=
  s ← get_self;
  d ← getattr (val_dataset s) "val_dataset";
  new_DataLoader e
    (mkDataLoader d (batch_size s) (num_workers s) (pin_memory s)
       (persistent_workers s) None).

Definition test_dataloader (e : env) : M DataLoader :=
  s ← get_self;
  d ← getattr (test_dataset s) "test_dataset";
  new_DataLoader e
    (mkDataLoader d (batch_size s) (num_workers s) (pin_memory s)
       (persistent_workers s) None).

(** The checks [DataLoader.__init__] makes on the arguments these methods
    pass, in its order (torch/utils/data/dataloader.py, and the
    [BatchSampler] it builds, sampler.py). *)
Definition torch_DataLoader_checks (dl : DataLoader) : option exn :=
  if dl_num_workers dl <? 0 then
    Some (ValueError ("num_workers option should be non-negative; " +:+
                      "use num_workers=0 to disable multiprocessing."))
  else if dl_persistent_workers dl && (dl_num_workers dl =? 0) then
    Some (ValueError "persistent_workers option needs num_workers > 0")
  else if dl_batch_size dl <=? 0 then
    Some (ValueError ("batch_size should be a positive integer value, " +:+
                      "but got batch_size=" +:+ pretty (dl_batch_size dl)))
  else None.

(** [DataLoader] shuffles only when [shuffle=True] is passed. *)
Definition shuffles (dl : DataLoader) : bool := default false (dl_shuffle dl).

(** ** [CenterCropMinXY] *)

(** A rank-3 tensor: [image.shape = (c, h, w)] and the entries by channel,
    row and column. *)
Record tensor (A : Type) := mkTensor {
  t_shape : nat * nat * nat;
  t_data : list (list (list A))
}.
Arguments mkTensor {A} _ _.
Arguments t_shape {A} _.
Arguments t_data {A} _.

(** The entries agree with the shape. *)
Definition tensor_wf {A} (t : tensor A) : Prop :=
  let '(c, h, w) := t_shape t in
  length (t_data t) = c /\
  Forall (fun ch => length ch = h /\ Forall (fun row => length row = w) ch) (t_data t).

(** [t[k, i, j]] *)
Definition entry {A} (t : tensor A) (k i j : nat) : option A :=
  ch ← t_data t !! k; row ← ch !! i; row !! j.

(** [l[lo:hi]] for non-negative bounds. *)
Definition py_slice {A} (lo hi : nat) (l : list A) : list A :=
  take (hi - lo) (drop lo l).

(** [len(range(n)[lo:hi])] *)
Definition slice_len (n lo hi : nat) : nat := (Nat.min hi n - Nat.min lo n)%nat.

(** [image[:, r0:r1, c0:c1]] *)
Definition crop {A} (t : tensor A) (r0 r1 c0 c1 : nat) : tensor A :=
  let '(c, h, w) := t_shape t in
  mkTensor (c, slice_len h r0 r1, slice_len w c0 c1)
    ((fun ch => py_slice c0 c1 <$> py_slice r0 r1 ch) <$> t_data t).

(** What a transform may be handed. *)
Inductive image (A : Type) :=
| Tensor (t : tensor A)
| PILImage.
Arguments Tensor {A} _.
Arguments PILImage {A}.

(** [CenterCropMinXY.__call__] *)
Definition CenterCropMinXY_call {A} (img : image A) : exn + image A :=
  match img with
  | Tensor t =>
      let '(_, h, w) := t_shape t in
      let min_dim := Nat.min h w in
      let top := ((h - min_dim) / 2)%nat in
      let left := ((w - min_dim) / 2)%nat in
      inr (Tensor (crop t top (top + min_dim) left (left + min_dim)))
  | PILImage => inl (AssertionError "")
  end.

(** ** Definitions used to state the properties *)

(** The dict [__init__] stores in [self.transforms]. *)
Definition transforms_dict (channels size : Z) : gmap string Compose :=
  <["train" := train_chain channels size]>
    (<["val" := val_chain channels size]>
      (<["test" := test_chain channels size]> ∅)).

(** The object [__init__] returns when [sanity_check] passes. *)
Definition fresh_module (e : env) (a : init_args) : DataModule :=
  mkDataModule (a_name a) (a_data_dir a) (a_img_size a) (a_img_channels a)
    (effective_batch_size e (a_batch_size a))
    (a_num_workers a) (a_pin_memory a) (a_persistent_workers a)
    (a_train_val_split a) (a_download a)
    (transforms_dict (a_img_channels a) (a_img_size a)) None None None.

(** Channel count per dataset name, as the specification words it: 1 for
    MNIST, 2 for SEN12MSCR, 3 for every other name. *)
Definition required_channels (nm : string) : Z :=
  if decide (nm = "MNIST") then 1
  else if decide (nm = "SEN12MSCR") then 2
  else 3.

(** The names [setup] has a branch for. *)
Definition supported (nm : string) : Prop :=
  nm ∈ ["MNIST"; "LSUN"; "CelebA"; "Flowers102"; "SEN12MSCR"]%string.

(** The names [prepare_data] has a branch for. *)
Definition downloadable (nm : string) : Prop :=
  nm ∈ ["MNIST"; "CelebA"; "Flowers102"]%string.

(** The parameters of the [Normalize] steps of a chain. *)
Definition normalize_params (c : Compose) : list (list Q * list Q) :=
  omap (fun t => match t with Normalize m s => Some (m, s) | _ => None end) c.

(** The split of the underlying data a dataset reads: the dataset family
    with the arguments that select the split. *)
Inductive split_id :=
| SplitMNIST (train : bool)
| SplitLSUN (classes : list string)
| SplitCelebA (split : string)
| SplitFlowers102 (split : string)
| SplitSEN12MSCR (split : string).

Fixpoint underlying_split (d : dataset) : split_id :=
  match d with
  | MNIST _ train _ _ => SplitMNIST train
  | LSUN _ classes _ => SplitLSUN classes
  | CelebA _ split _ _ _ => SplitCelebA split
  | Flowers102 _ split _ _ => SplitFlowers102 split
  | SEN12MSCR _ split _ => SplitSEN12MSCR split
  | Subset base _ _ => underlying_split base
  end.

(** The dataset family a dataset belongs to. *)
Fixpoint family_of (d : dataset) : string :=
  match d with
  | MNIST _ _ _ _ => "MNIST"
  | LSUN _ _ _ => "LSUN"
  | CelebA _ _ _ _ _ => "CelebA"
  | Flowers102 _ _ _ _ => "Flowers102"
  | SEN12MSCR _ _ _ => "SEN12MSCR"
  | Subset base _ _ => family_of base
  end.

(** The transform a dataset applies to its samples; a [Subset] reads its
    samples through its base dataset. *)
Fixpoint dataset_transform (d : dataset) : option Compose :=
  match d with
  | MNIST _ _ t _ | LSUN _ _ t | CelebA _ _ _ t _ | Flowers102 _ _ t _
  | SEN12MSCR _ _ t => t
  | Subset base _ _ => dataset_transform base
  end.

(** The [download=] keyword of a constructor call. *)
Definition download_arg (d : dataset) : option bool :=
  match d with
  | MNIST _ _ _ dl | CelebA _ _ _ _ dl | Flowers102 _ _ _ dl => dl
  | LSUN _ _ _ | SEN12MSCR _ _ _ | Subset _ _ _ => None
  end.


(** Concrete inputs used in the examples below: two devices, datasets of
    60000 samples; the constructor's default arguments (the default
    [train_val_split] is the float nearest to 0.8). *)
Definition ex_env : env := mkEnv 2 (fun _ => 60000) torch_DataLoader_checks.

Definition ex_args (nm : string) (channels : Z) (dir : path_like) : init_args :=
  mkArgs nm 64 channels dir 32 0 true true 0x1.999999999999ap-1%float true.

(** The same with four worker processes. *)
Definition ex_args_workers (nm : string) (channels : Z) (dir : path_like) : init_args :=
  mkArgs nm 64 channels dir 32 4 true true 0x1.999999999999ap-1%float true.

Definition ex_tensor : tensor Z :=
  mkTensor (1, 2, 4)%nat [[[1; 2; 3; 4]; [5; 6; 7; 8]]].

(** The [root] argument of a constructor call. *)
Fixpoint dataset_root (d : dataset) : path_like :=
  match d with
  | MNIST r _ _ _ | LSUN r _ _ | CelebA r _ _ _ _ | Flowers102 r _ _ _
  | SEN12MSCR r _ _ => r
  | Subset base _ _ => dataset_root base
  end.

(** Two module states agree on every attribute [__init__] assigns. *)
Definition same_config (d d' : DataModule) : Prop :=
  name d = name d' /\ data_dir d = data_dir d' /\ img_size d = img_size d' /\
  img_channels d = img_channels d' /\ batch_size d = batch_size d' /\
  num_workers d = num_workers d' /\ pin_memory d = pin_memory d' /\
  persistent_workers d = persistent_workers d' /\
  train_val_split d = train_val_split d' /\ download d = download d' /\
  transforms d = transforms d'.

(** More concrete inputs for the examples. *)
Definition ex_args_split (split : float) : init_args :=
  mkArgs "MNIST" 28 1 (PStr "data") 32 0 true true split true.

(** ** Definitions used to state the rounding of the float product *)

(** [a <= m * 2^e] and [m * 2^e <= b], on integers. *)
Definition below (a m e : Z) : Prop := a * 2 ^ Z.max 0 (- e) <= m * 2 ^ Z.max 0 e.
Definition above (m e b : Z) : Prop := m * 2 ^ Z.max 0 e <= b * 2 ^ Z.max 0 (- e).

(** The float with a non-negative mantissa [m], exponent [e] and sign [sx]. *)
Definition SF_of (sx : bool) (m e : Z) : spec_float :=
  match m with
  | Z0 => S754_zero sx
  | Zpos p => S754_finite sx p e
  | Zneg _ => S754_nan
  end.

(** Unfolding the monad's operations. *)
Ltac run_M :=
  unfold new_DataLoader, mbind, M_bind, mret, M_ret, get_self, modify_self,
    construct, getitem, getattr, lift, raise, py_assert; cbn.

(** The name tests of [setup], in order. *)
Ltac setup_branches s :=
  destruct (name s =? "MNIST")%string;
  [|destruct (name s =? "LSUN")%string;
    [|destruct (name s =? "CelebA")%string;
      [|destruct (name s =? "Flowers102")%string;
        [|destruct (name s =? "SEN12MSCR")%string]]]].

(** A dataset read by [setup] is matched by one of up to three prepared. *)
Ltac covered_by_prepared :=
  split; [done|];
  first
    [ eexists; split; [apply list_elem_of_here|]; by repeat split
    | eexists; split; [apply list_elem_of_further, list_elem_of_here|];
      by repeat split
    | eexists; split;
      [apply list_elem_of_further, list_elem_of_further, list_elem_of_here|];
      by repeat split ].

(** * Properties *)

(** ** Arithmetic of [int] and [/] *)

Lemma py_int_truediv (a b : Z) : 0 < b -> py_int (py_truediv a b) = Z.quot a b.
Proof.
  intros Hb. destruct b as [|p|p]; try lia.
  unfold py_truediv, py_int, Qdiv, Qinv, Qmult. cbn.
  by rewrite Z.mul_1_r.
Qed.

Lemma effective_batch_size_multi e b :
  1 < cuda_device_count e -> effective_batch_size e b = Z.quot b (cuda_device_count e).
Proof.
  intros Hd. unfold effective_batch_size.
  destruct (Z.gtb_spec (cuda_device_count e) 1); [|lia].
  apply py_int_truediv. lia.
Qed.

Lemma effective_batch_size_single e b :
  cuda_device_count e <= 1 -> effective_batch_size e b = b.
Proof.
  intros Hd. unfold effective_batch_size.
  destruct (Z.gtb_spec (cuda_device_count e) 1); [lia|].
  rewrite py_int_truediv by lia. apply Z.quot_1_r.
Qed.

(** ** Rounding of the float product [len * train_val_split] *)

(** The number of binary digits of a mantissa. *)
Lemma digits2_pos_size p : digits2_pos p = Pos.size p.
Proof. induction p; cbn; congruence. Qed.

Lemma digits2_pos_bounds p :
  2 ^ (Z.pos (digits2_pos p) - 1) <= Z.pos p < 2 ^ Z.pos (digits2_pos p).
Proof.
  rewrite digits2_pos_size. split.
  - pose proof (Pos.size_le p) as H.
    assert (H' : 2 ^ Z.pos (Pos.size p) <= 2 * Z.pos p).
    { change (2 * Z.pos p) with (Z.pos p~0). rewrite <- Pos2Z.inj_pow. exact H. }
    replace (Z.pos (Pos.size p)) with (Z.succ (Z.pos (Pos.size p) - 1)) in H' by lia.
    rewrite Z.pow_succ_r in H' by lia. lia.
  - pose proof (Pos.size_gt p) as H.
    change 2 with (Z.pos 2). rewrite <- Pos2Z.inj_pow. exact H.
Qed.

(** Shifting a mantissa right by [n] bits divides it by [2^n]; the two
    bits that record what was shifted out stay clear when nothing was. *)
Lemma iter_pos_nat {A} (f : A -> A) p x :
  SpecFloat.iter_pos f p x = Nat.iter (Pos.to_nat p) f x.
Proof.
  revert x. induction p as [p IH|p IH|]; intros x; cbn [SpecFloat.iter_pos].
  - rewrite !IH, Pos2Nat.inj_xI.
    replace (S (2 * Pos.to_nat p)) with (Pos.to_nat p + Pos.to_nat p + 1)%nat by lia.
    by rewrite !Nat.iter_add.
  - rewrite !IH, Pos2Nat.inj_xO.
    replace (2 * Pos.to_nat p)%nat with (Pos.to_nat p + Pos.to_nat p)%nat by lia.
    by rewrite Nat.iter_add.
  - reflexivity.
Qed.

Lemma shr_1_nonneg mrs :
  0 <= shr_m mrs ->
  shr_m (shr_1 mrs) = shr_m mrs / 2 /\
  shr_r (shr_1 mrs) = Z.odd (shr_m mrs) /\
  shr_s (shr_1 mrs) = orb (shr_r mrs) (shr_s mrs).
Proof.
  destruct mrs as [m r s]. cbn [shr_m shr_r shr_s]. intros Hm.
  destruct m as [|[p|p|]|p]; cbn [shr_1 shr_m shr_r shr_s]; try lia.
  - done.
  - split; [|done]. rewrite Pos2Z.inj_xI.
    apply Z.div_unique with 1; lia.
  - split; [|done]. rewrite Pos2Z.inj_xO.
    apply Z.div_unique with 0; lia.
  - done.
Qed.

Lemma shr_iter_nonneg (n : nat) (M : Z) :
  0 <= M ->
  let mrs := Nat.iter n shr_1 (Build_shr_record M false false) in
  shr_m mrs = M / 2 ^ Z.of_nat n /\
  (M mod 2 ^ Z.of_nat n = 0 -> shr_r mrs = false /\ shr_s mrs = false).
Proof.
  intros HM. induction n as [|n IH]; cbv zeta.
  - cbn. rewrite Z.div_1_r. done.
  - cbv zeta in IH. destruct IH as [IHm IHe].
    rewrite Nat.iter_succ.
    set (mrs := Nat.iter n shr_1 (Build_shr_record M false false)) in *.
    assert (Hnn : 0 <= shr_m mrs).
    { rewrite IHm. apply Z.div_pos; lia. }
    destruct (shr_1_nonneg mrs Hnn) as (Hm & Hr & Hs).
    rewrite Hm, Hr, Hs, IHm.
    rewrite Nat2Z.inj_succ, Z.pow_succ_r by lia.
    assert (Hp : 0 < 2 ^ Z.of_nat n) by (apply Z.pow_pos_nonneg; lia).
    split.
    + rewrite Z.div_div by lia. f_equal. lia.
    + intros Hmod.
      assert (Hmod' : M mod 2 ^ Z.of_nat n = 0).
      { apply Z.mod_divide in Hmod; [|lia]. apply Z.mod_divide; [lia|].
        destruct Hmod as [c Hc]. exists (c * 2). lia. }
      destruct (IHe Hmod') as [-> ->]. split; [|done].
      apply Z.mod_divide in Hmod; [|lia]. destruct Hmod as [c Hc].
      replace M with ((2 * c) * 2 ^ Z.of_nat n) by lia.
      rewrite Z.div_mul by lia. rewrite Z.odd_mul. done.
Qed.

(** Rounding to nearest even moves a truncated mantissa by at most one, and
    not at all when nothing was shifted out. *)
Lemma round_nearest_even_bounds m l :
  m <= round_nearest_even m l <= m + 1 /\
  (l = loc_Exact -> round_nearest_even m l = m).
Proof.
  destruct l as [|[]]; cbn; try destruct (Z.even m);
    (split; [lia | intros; first [reflexivity | discriminate]]).
Qed.

Lemma fexp_b64 x : fexp prec emax x = Z.max (x - 53) (-1074).
Proof. reflexivity. Qed.

Lemma shr_pos (M : Z) (e k : Z) :
  0 <= M -> 0 < k ->
  exists r s,
    shr (Build_shr_record M false false) e k
      = (Build_shr_record (M / 2 ^ k) r s, e + k) /\
    (M mod 2 ^ k = 0 -> r = false /\ s = false).
Proof.
  intros HM Hk. destruct k as [|p|p]; try lia. cbn [shr].
  rewrite iter_pos_nat.
  destruct (shr_iter_nonneg (Pos.to_nat p) M HM) as [Hm He].
  rewrite positive_nat_Z in Hm, He.
  destruct (Nat.iter (Pos.to_nat p) shr_1 (Build_shr_record M false false))
    as [m r s]. cbn in Hm, He. subst m. by exists r, s.
Qed.

Lemma shr_nonpos mrs (e k : Z) : k <= 0 -> shr mrs e k = (mrs, e).
Proof. destruct k; [done | lia | done]. Qed.

Lemma digits_le_lt (p : positive) n :
  0 <= n -> Z.pos p < 2 ^ n -> Z.pos (digits2_pos p) <= n.
Proof.
  intros Hn Hlt. destruct (digits2_pos_bounds p) as [Hlo _].
  destruct (Z.le_gt_cases (Z.pos (digits2_pos p)) n) as [|Hgt]; [done|].
  assert (2 ^ n <= 2 ^ (Z.pos (digits2_pos p) - 1)) by (apply Z.pow_le_mono_r; lia).
  lia.
Qed.

(** A value below 2^53 has its leading bit below position 53. *)
Lemma digits_sum_le (M : positive) e b :
  b < 2 ^ 53 -> above (Z.pos M) e b -> Z.pos (digits2_pos M) + e <= 53.
Proof.
  intros Hb Hhi. unfold above in Hhi.
  destruct (digits2_pos_bounds M) as [Hlo _].
  set (d := Z.pos (digits2_pos M)) in *.
  destruct (Z.le_gt_cases (d + e) 53) as [|Hgt]; [done|exfalso].
  destruct (Z.le_gt_cases 0 e) as [He|He].
  - rewrite Z.max_r, Z.max_l in Hhi by lia. rewrite Z.pow_0_r in Hhi.
    assert (H53 : 2 ^ 53 <= 2 ^ (d - 1 + e)) by (apply Z.pow_le_mono_r; lia).
    rewrite Z.pow_add_r in H53 by lia.
    assert (0 < 2 ^ e) by (apply Z.pow_pos_nonneg; lia).
    nia.
  - rewrite Z.max_l, Z.max_r in Hhi by lia. rewrite Z.pow_0_r in Hhi.
    assert (H53 : 2 ^ (53 + - e) <= 2 ^ (d - 1)) by (apply Z.pow_le_mono_r; lia).
    rewrite Z.pow_add_r in H53 by lia.
    assert (0 < 2 ^ (- e)) by (apply Z.pow_pos_nonneg; lia).
    nia.
Qed.

(** Rounding to binary64 is monotone against integers: a value between two
    integers [a] and [b] below 2^53 rounds to a finite float between them.
    (Integers of that size are floats, and rounding to nearest does not
    cross a float.) *)
Lemma binary_round_aux_bounds sx (M : positive) e a b :
  0 <= a -> b < 2 ^ 53 -> below a (Z.pos M) e -> above (Z.pos M) e b ->
  exists m2 e2, 0 <= m2 /\
    binary_round_aux prec emax sx (Z.pos M) e loc_Exact = SF_of sx m2 e2 /\
    below a m2 e2 /\ above m2 e2 b.
Proof.
  intros Ha Hb Hlo Hhi.
  pose proof (digits_sum_le M e b Hb Hhi) as Hde.
  destruct (digits2_pos_bounds M) as [Hdlo Hdhi].
  unfold binary_round_aux, shr_fexp. cbn [shr_record_of_loc Zdigits2].
  rewrite fexp_b64.
  set (d := Z.pos (digits2_pos M)) in *.
  assert (Hd1 : 1 <= d) by (unfold d; lia).
  set (k := Z.max (d + e - 53) (-1074) - e).
  destruct (Z.le_gt_cases k 0) as [Hk|Hk].
  - rewrite shr_nonpos by done.
    cbn [shr_m loc_of_shr_record round_nearest_even shr_record_of_loc Zdigits2].
    rewrite fexp_b64. fold d. fold k. rewrite shr_nonpos by done. cbn [shr_m].
    replace (e <=? emax - prec) with true
      by (symmetry; apply Z.leb_le; change (emax - prec) with 971; lia).
    by exists (Z.pos M), e.
  - destruct (shr_pos (Z.pos M) e k) as (r & s & Hshr & Hex); [lia | lia |].
    rewrite Hshr. cbn [shr_m].
    set (q := Z.pos M / 2 ^ k) in *.
    set (l := loc_of_shr_record (Build_shr_record q r s)).
    set (e1 := e + k).
    assert (He1 : e1 = Z.max (d + e - 53) (-1074)) by (unfold e1, k; lia).
    assert (He1a : -1074 <= e1 <= 0) by lia.
    assert (He : e < 0) by lia.
    unfold below in Hlo. unfold above in Hhi.
    rewrite Z.max_r, Z.max_l in Hlo by lia.
    rewrite Z.max_l, Z.max_r in Hhi by lia.
    rewrite Z.pow_0_r, Z.mul_1_r in Hlo, Hhi.
    assert (Hpe : 2 ^ (- e) = 2 ^ (- e1) * 2 ^ k).
    { rewrite <- Z.pow_add_r by lia. f_equal. unfold e1. lia. }
    assert (Hpk : 0 < 2 ^ k) by (apply Z.pow_pos_nonneg; lia).
    assert (Hpe1 : 0 < 2 ^ (- e1)) by (apply Z.pow_pos_nonneg; lia).
    rewrite Hpe in Hlo, Hhi.
    assert (HM : Z.pos M = 2 ^ k * q + Z.pos M mod 2 ^ k)
      by (apply Z.div_mod; lia).
    assert (Hmod : 0 <= Z.pos M mod 2 ^ k < 2 ^ k) by (apply Z.mod_pos_bound; lia).
    assert (HAq : a * 2 ^ (- e1) <= q) by nia.
    assert (HqB : q <= b * 2 ^ (- e1)) by nia.
    assert (HqB' : Z.pos M mod 2 ^ k <> 0 -> q + 1 <= b * 2 ^ (- e1)) by (intros; nia).
    assert (Hq53 : q < 2 ^ 53).
    { assert (H2 : 2 ^ d <= 2 ^ (53 + k)) by (apply Z.pow_le_mono_r; lia).
      rewrite Z.pow_add_r in H2 by lia.
      apply Z.div_lt_upper_bound; lia. }
    assert (Hq0 : 0 <= q) by (apply Z.div_pos; lia).
    destruct (round_nearest_even_bounds q l) as [Hm1 Hm1e].
    set (m1 := round_nearest_even q l) in *.
    assert (Hm1B : m1 <= b * 2 ^ (- e1)).
    { destruct (Z.eq_dec (Z.pos M mod 2 ^ k) 0) as [Hz|Hnz].
      - destruct (Hex Hz) as [-> ->]. rewrite Hm1e by done. done.
      - specialize (HqB' Hnz). lia. }
    assert (HAm1 : a * 2 ^ (- e1) <= m1) by lia.
    cbn [shr_record_of_loc].
    destruct m1 as [|p|p] eqn:Em1; [| |lia].
    + cbn [Zdigits2]. rewrite fexp_b64. rewrite shr_nonpos by lia. cbn [shr_m].
      exists 0, e1. split; [done|]. split; [done|].
      unfold below, above. rewrite !Z.max_r, !Z.max_l by lia.
      split; nia.
    + cbn [Zdigits2]. rewrite fexp_b64.
      destruct (Z.eq_dec (Z.pos p) (2 ^ 53)) as [Hp|Hp].
      * assert (p = 9007199254740992%positive) as -> by (change (2 ^ 53) with 9007199254740992 in Hp; lia).
        change (Z.pos (digits2_pos 9007199254740992)) with 54.
        replace (Z.max (54 + e1 - 53) (-1074) - e1) with 1 by lia.
        cbn [shr SpecFloat.iter_pos shr_1 shr_m].
        replace (e1 + 1 <=? emax - prec) with true
          by (symmetry; apply Z.leb_le; change (emax - prec) with 971; lia).
        exists 4503599627370496, (e1 + 1). split; [done|]. split; [done|].
        change (Z.pos 9007199254740992) with (2 * 4503599627370496) in *.
        unfold below, above.
        destruct (Z.eq_dec e1 0) as [E0|E0].
        -- rewrite E0 in *. change (2 ^ (- 0)) with 1 in *. change (2 ^ 53) with (2 * 4503599627370496) in *. lia.
        -- rewrite !Z.max_r, !Z.max_l by lia. rewrite Z.pow_0_r, Z.mul_1_r.
           assert (Hp2 : 2 ^ (- e1) = 2 * 2 ^ (- (e1 + 1))).
           { rewrite <- (Z.pow_succ_r 2) by lia. f_equal. lia. }
           rewrite Hp2 in *. lia.
      * assert (Hd53 : Z.pos (digits2_pos p) <= 53) by (apply digits_le_lt; lia).
        rewrite shr_nonpos by lia. cbn [shr_m].
        replace (e1 <=? emax - prec) with true
          by (symmetry; apply Z.leb_le; change (emax - prec) with 971; lia).
        exists (Z.pos p), e1. split; [done|]. split; [done|].
        unfold below, above. rewrite !Z.max_r, !Z.max_l by lia.
        rewrite Z.pow_0_r, Z.mul_1_r. lia.
Qed.

(** So is truncation to an integer. *)
Lemma SF2Z_bounds m e a b :
  0 <= m -> below a m e -> above m e b -> a <= SF2Z (SF_of false m e) <= b.
Proof.
  intros Hm Hlo Hhi. unfold below in Hlo. unfold above in Hhi.
  assert (Hp1 : 0 < 2 ^ Z.max 0 e) by (apply Z.pow_pos_nonneg; lia).
  assert (Hp2 : 0 < 2 ^ Z.max 0 (- e)) by (apply Z.pow_pos_nonneg; lia).
  destruct m as [|p|p]; [cbn; nia | | by elim Hm].
  cbn [SF_of SF2Z cond_Zopp].
  destruct (Z.le_gt_cases 0 e) as [He|He].
  - rewrite Z.shiftl_mul_pow2 by done.
    rewrite (Z.max_r 0 e), (Z.max_l 0 (- e)) in Hlo, Hhi by lia.
    rewrite Z.pow_0_r, Z.mul_1_r in Hlo, Hhi. lia.
  - rewrite Z.shiftl_div_pow2 by lia.
    rewrite (Z.max_l 0 e), (Z.max_r 0 (- e)) in Hlo, Hhi by lia.
    rewrite Z.pow_0_r, Z.mul_1_r in Hlo, Hhi.
    split.
    + apply Z.div_le_lower_bound; lia.
    + apply Z.div_le_upper_bound; lia.
Qed.

Lemma Pos_iter_xO p d : Z.pos (Pos.iter xO p d) = Z.pos p * 2 ^ Z.pos d.
Proof.
  induction d as [|d IH] using Pos.peano_ind.
  - cbn. lia.
  - rewrite Pos.iter_succ, Pos2Z.inj_succ, Z.pow_succ_r by lia.
    rewrite Pos2Z.inj_xO, IH. lia.
Qed.

(** [float(n)] is exact for [0 <= n < 2^53]. *)
Lemma binary_normalize_exact n :
  0 <= n < 2 ^ 53 ->
  exists m e, 0 <= m /\
    binary_normalize prec emax n 0 false = SF_of false m e /\
    below n m e /\ above m e n.
Proof.
  intros [Hn0 Hn]. destruct n as [|p|p]; [| |lia].
  - exists 0, 0. by cbn.
  - cbn [binary_normalize]. unfold binary_round, shl_align.
    destruct (fexp prec emax (Z.pos (digits2_pos p) + 0) - 0) as [|d|d] eqn:Ed.
    + apply binary_round_aux_bounds; [lia | lia | |]; unfold below, above;
        change (Z.max 0 (- 0)) with 0; change (Z.max 0 0) with 0; lia.
    + apply binary_round_aux_bounds; [lia | lia | |]; unfold below, above;
        change (Z.max 0 (- 0)) with 0; change (Z.max 0 0) with 0; lia.
    + assert (Hf : fexp prec emax (Z.pos (digits2_pos p) + 0) = - Z.pos d) by lia.
      rewrite Hf.
      apply binary_round_aux_bounds; [lia | lia | |];
        unfold below, above; rewrite Pos_iter_xO;
        rewrite (Z.max_l 0 (- Z.pos d)), (Z.max_r 0 (- - Z.pos d)) by lia;
        rewrite Z.pow_0_r, Z.opp_involutive; lia.
Qed.

Lemma float_of_int_exact n :
  0 <= n < 2 ^ 53 ->
  exists m e, 0 <= m /\
    Prim2SF (float_of_int n) = SF_of false m e /\ below n m e /\ above m e n.
Proof.
  intros Hn. unfold float_of_int. rewrite of_uint63_spec.
  rewrite Uint63.of_Z_spec. rewrite Z.mod_small.
  - by apply binary_normalize_exact.
  - change Uint63.wB with (2 ^ 63). assert (2 ^ 53 < 2 ^ 63) by done. lia.
Qed.


Lemma Prim2SF_0 : Prim2SF 0 = S754_zero false.
Proof. vm_compute. reflexivity. Qed.
Lemma Prim2SF_1 : Prim2SF 1 = S754_finite false 4503599627370496 (-52).
Proof. vm_compute. reflexivity. Qed.


(** The exact product of a float of value [n] and a float of value at most
    1 (at least 1) is at most (at least) [n]. *)
Lemma above_product (p ms : positive) (ex es n : Z) :
  below n (Z.pos p) ex -> above (Z.pos p) ex n ->
  es < 0 -> Z.pos ms <= 2 ^ (- es) ->
  above (Z.pos (p * ms)) (ex + es) n.
Proof.
  unfold below, above. intros Hlo Hhi Hes Hms.
  rewrite Pos2Z.inj_mul.
  assert (Hn : n * 2 ^ Z.max 0 (- ex) = Z.pos p * 2 ^ Z.max 0 ex) by lia.
  clear Hlo Hhi.
  assert (Hps : 0 < 2 ^ (- es)) by (apply Z.pow_pos_nonneg; lia).
  destruct (Z.le_gt_cases 0 ex) as [Hex|Hex].
  - rewrite (Z.max_r 0 ex), (Z.max_l 0 (- ex)) in Hn by lia.
    rewrite Z.pow_0_r, Z.mul_1_r in Hn.
    destruct (Z.le_gt_cases 0 (ex + es)) as [He|He].
    + rewrite (Z.max_r 0 (ex + es)), (Z.max_l 0 (- (ex + es))) by lia.
      rewrite Z.pow_0_r, Z.mul_1_r.
      assert (Hsplit : 2 ^ ex = 2 ^ (ex + es) * 2 ^ (- es)).
      { rewrite <- Z.pow_add_r by lia. f_equal. lia. }
      assert (0 < 2 ^ (ex + es)) by (apply Z.pow_pos_nonneg; lia).
      rewrite Hn, Hsplit. nia.
    + rewrite (Z.max_l 0 (ex + es)), (Z.max_r 0 (- (ex + es))) by lia.
      rewrite Z.pow_0_r, Z.mul_1_r.
      assert (Hsplit : 2 ^ (- es) = 2 ^ ex * 2 ^ (- (ex + es))).
      { rewrite <- Z.pow_add_r by lia. f_equal. lia. }
      assert (0 < 2 ^ (- (ex + es))) by (apply Z.pow_pos_nonneg; lia).
      assert (0 < 2 ^ ex) by (apply Z.pow_pos_nonneg; lia).
      rewrite Hn. nia.
  - rewrite (Z.max_l 0 ex), (Z.max_r 0 (- ex)) in Hn by lia.
    rewrite Z.pow_0_r, Z.mul_1_r in Hn.
    rewrite (Z.max_l 0 (ex + es)), (Z.max_r 0 (- (ex + es))) by lia.
    rewrite Z.pow_0_r, Z.mul_1_r.
    assert (Hsplit : 2 ^ (- (ex + es)) = 2 ^ (- ex) * 2 ^ (- es)).
    { rewrite <- Z.pow_add_r by lia. f_equal. lia. }
    rewrite Hsplit, Z.mul_assoc, Hn. nia.
Qed.





Lemma below_product (p ms : positive) (ex es n : Z) :
  below n (Z.pos p) ex -> above (Z.pos p) ex n ->
  es < 0 -> 2 ^ (- es) <= Z.pos ms ->
  below n (Z.pos (p * ms)) (ex + es).
Proof.
  unfold below, above. intros Hlo Hhi Hes Hms.
  rewrite Pos2Z.inj_mul.
  assert (Hn : n * 2 ^ Z.max 0 (- ex) = Z.pos p * 2 ^ Z.max 0 ex) by lia.
  clear Hlo Hhi.
  assert (Hps : 0 < 2 ^ (- es)) by (apply Z.pow_pos_nonneg; lia).
  destruct (Z.le_gt_cases 0 ex) as [Hex|Hex].
  - rewrite (Z.max_r 0 ex), (Z.max_l 0 (- ex)) in Hn by lia.
    rewrite Z.pow_0_r, Z.mul_1_r in Hn.
    destruct (Z.le_gt_cases 0 (ex + es)) as [He|He].
    + rewrite (Z.max_r 0 (ex + es)), (Z.max_l 0 (- (ex + es))) by lia.
      rewrite Z.pow_0_r, Z.mul_1_r.
      assert (Hsplit : 2 ^ ex = 2 ^ (ex + es) * 2 ^ (- es)).
      { rewrite <- Z.pow_add_r by lia. f_equal. lia. }
      assert (0 < 2 ^ (ex + es)) by (apply Z.pow_pos_nonneg; lia).
      rewrite Hn, Hsplit. nia.
    + rewrite (Z.max_l 0 (ex + es)), (Z.max_r 0 (- (ex + es))) by lia.
      rewrite Z.pow_0_r, Z.mul_1_r.
      assert (Hsplit : 2 ^ (- es) = 2 ^ ex * 2 ^ (- (ex + es))).
      { rewrite <- Z.pow_add_r by lia. f_equal. lia. }
      assert (0 < 2 ^ (- (ex + es))) by (apply Z.pow_pos_nonneg; lia).
      assert (0 < 2 ^ ex) by (apply Z.pow_pos_nonneg; lia).
      rewrite Hn. nia.
  - rewrite (Z.max_l 0 ex), (Z.max_r 0 (- ex)) in Hn by lia.
    rewrite Z.pow_0_r, Z.mul_1_r in Hn.
    rewrite (Z.max_l 0 (ex + es)), (Z.max_r 0 (- (ex + es))) by lia.
    rewrite Z.pow_0_r, Z.mul_1_r.
    assert (Hsplit : 2 ^ (- (ex + es)) = 2 ^ (- ex) * 2 ^ (- es)).
    { rewrite <- Z.pow_add_r by lia. f_equal. lia. }
    rewrite Hsplit, Z.mul_assoc, Hn. nia.
Qed.


(** Float equality with 1.0 and with 0.0. *)
Lemma SFeqb_one (f : spec_float) :
  SFeqb f (S754_finite false 4503599627370496 (-52)) = true ->
  f = S754_finite false 4503599627370496 (-52).
Proof.
  unfold SFeqb. destruct f as [sg|sg| |sg m e]; cbn [SFcompare];
    try (destruct sg; discriminate); try discriminate.
  destruct sg; [discriminate|].
  destruct (Z.compare_spec e (-52)) as [->|_|_]; [|discriminate..].
  rewrite Pos.compare_cont_spec. cbn [Pos.switch_Eq].
  destruct (m ?= 4503599627370496)%positive eqn:E; [|discriminate..].
  apply Pos.compare_eq in E. by rewrite E.
Qed.

Lemma SFeqb_zero (f : spec_float) :
  SFeqb f (S754_zero false) = true -> exists sg, f = S754_zero sg.
Proof.
  unfold SFeqb. destruct f as [sg|sg| |sg m e]; cbn [SFcompare];
    try (destruct sg; discriminate); try discriminate.
  intros _. by exists sg.
Qed.

(** Multiplying by 1.0 and by a zero is exact. *)
Lemma float_mul_one (n : Z) (s : float) :
  0 <= n < 2 ^ 53 -> (s =? 1)%float = true ->
  py_int_float (float_of_int n * s) = n.
Proof.
  intros Hn Hs. rewrite FloatAxioms.eqb_spec, Prim2SF_1 in Hs.
  apply SFeqb_one in Hs.
  unfold py_int_float. rewrite FloatAxioms.mul_spec, Hs.
  destruct (float_of_int_exact n Hn) as (mx & ex & Hmx & Hx & Hlo & Hhi).
  rewrite Hx. unfold SF64mul.
  destruct mx as [|p|p]; [| |by elim Hmx].
  - cbn. unfold below in Hlo. unfold above in Hhi.
    assert (0 < 2 ^ Z.max 0 (- ex)) by (apply Z.pow_pos_nonneg; lia). nia.
  - cbn [SF_of SFmul xorb].
    destruct (binary_round_aux_bounds false (p * 4503599627370496) (ex + -52) n n)
      as (m2 & e2 & Hm2 & Heq & Hl2 & Hh2); [lia | lia | | |].
    + apply below_product; [done | done | lia | done].
    + apply above_product; [done | done | lia | done].
    + rewrite Heq. pose proof (SF2Z_bounds m2 e2 n n Hm2 Hl2 Hh2). lia.
Qed.

Lemma float_mul_zero (n : Z) (s : float) :
  0 <= n < 2 ^ 53 -> (s =? 0)%float = true ->
  py_int_float (float_of_int n * s) = 0.
Proof.
  intros Hn Hs. rewrite FloatAxioms.eqb_spec, Prim2SF_0 in Hs.
  apply SFeqb_zero in Hs as [sg Hs].
  unfold py_int_float. rewrite FloatAxioms.mul_spec, Hs.
  destruct (float_of_int_exact n Hn) as (mx & ex & Hmx & Hx & _ & _).
  rewrite Hx. by destruct mx.
Qed.

(** ** Paths *)

Lemma path_join_examples :
  path_join "data" "LSUN" = "data/LSUN" /\
  path_join "/" "LSUN" = "/LSUN" /\
  path_join "." "LSUN" = "LSUN".
Proof. done. Qed.

(** ** The transforms dict *)

Lemma transforms_dict_train c s :
  transforms_dict c s !! "train" = Some (train_chain c s).
Proof. unfold transforms_dict. by rewrite lookup_insert_eq. Qed.

Lemma transforms_dict_val c s :
  transforms_dict c s !! "val" = Some (val_chain c s).
Proof.
  unfold transforms_dict. rewrite lookup_insert_ne by done.
  by rewrite lookup_insert_eq.
Qed.

Lemma transforms_dict_test c s :
  transforms_dict c s !! "test" = Some (test_chain c s).
Proof.
  unfold transforms_dict. rewrite !lookup_insert_ne by done.
  by rewrite lookup_insert_eq.
Qed.

Lemma transforms_dict_other c s k :
  k <> "train" -> k <> "val" -> k <> "test" -> transforms_dict c s !! k = None.
Proof. intros. unfold transforms_dict. by rewrite !lookup_insert_ne. Qed.

Lemma normalize_params_dict c s s' k :
  normalize_params <$> (transforms_dict c s !! k)
  = normalize_params <$> (transforms_dict c s' !! k).
Proof.
  destruct (decide (k = "train")) as [->|];
    [by rewrite !transforms_dict_train|].
  destruct (decide (k = "val")) as [->|];
    [by rewrite !transforms_dict_val|].
  destruct (decide (k = "test")) as [->|];
    [by rewrite !transforms_dict_test|].
  by rewrite !transforms_dict_other.
Qed.

(** ** The constructor *)

Lemma required_channels_eqb nm :
  required_channels nm =
  if (nm =? "MNIST")%string then 1
  else if (nm =? "SEN12MSCR")%string then 2 else 3.
Proof.
  unfold required_channels.
  destruct (String.eqb_spec nm "MNIST"), (String.eqb_spec nm "SEN12MSCR");
    repeat case_decide; congruence.
Qed.

(** [__init__] either fails the assertion of [sanity_check], exactly when
    the channel count is not the one its branch compares with, or returns
    [fresh_module]. *)
Lemma init_cases e a :
  (a_img_channels a = required_channels (a_name a) /\
   __init__ e a = inr (fresh_module e a)) \/
  (a_img_channels a <> required_channels (a_name a) /\
   exists msg, __init__ e a = inl (AssertionError msg)).
Proof.
  rewrite required_channels_eqb.
  unfold __init__, init_body, sanity_check. run_M.
  destruct (a_name a =? "MNIST")%string;
    [|destruct (a_name a =? "SEN12MSCR")%string];
    match goal with |- context [?x =? ?n] => destruct (Z.eqb_spec x n) end;
    cbn; eauto.
Qed.

Lemma init_inv e a dm :
  __init__ e a = inr dm ->
  a_img_channels a = required_channels (a_name a) /\ dm = fresh_module e a.
Proof.
  destruct (init_cases e a) as [[Hc ->]|[_ [msg ->]]]; [|discriminate].
  intros [= <-]. done.
Qed.

(** C1. Constructing a [DataModule] validates its parameters: the
    constructor raises an [AssertionError] if and only if [img_channels]
    differs from the value required for the name (1 for "MNIST", 2 for
    "SEN12MSCR", 3 for every other name), it raises nothing else, and when
    [img_channels] matches it returns the object. *)
Theorem init_validates_channels (e : env) (a : init_args) :
  ((exists msg, __init__ e a = inl (AssertionError msg)) <->
     a_img_channels a <> required_channels (a_name a)) /\
  ((exists dm, __init__ e a = inr dm) <->
     a_img_channels a = required_channels (a_name a)) /\
  (forall err, __init__ e a = inl err -> exists msg, err = AssertionError msg) /\
  required_channels "MNIST" = 1 /\
  required_channels "SEN12MSCR" = 2 /\
  (forall nm, nm <> "MNIST" -> nm <> "SEN12MSCR" -> required_channels nm = 3).
Proof.
  repeat split.
  - intros [msg H]. destruct (init_cases e a) as [[_ H']|[Hne _]]; [congruence|done].
  - intros Hne. destruct (init_cases e a) as [[Heq _]|[_ H]]; done.
  - intros [dm H]. by apply init_inv in H as [? _].
  - intros Heq. destruct (init_cases e a) as [[_ H]|[Hne _]]; [eauto|done].
  - intros err H. destruct (init_cases e a) as [[_ H']|[_ [msg H']]].
    + congruence.
    + exists msg. congruence.
  - intros nm H1 H2. unfold required_channels. by repeat case_decide.
Qed.

(** C10. The batch size the constructor stores is the truncation of
    [batch_size] divided by the CUDA device count when more than one device
    is present, and [batch_size] itself with zero or one device; for a
    positive [batch_size] and more than one device it is the floor of the
    exact quotient. ([Z.quot] truncates towards zero, [Z.div] and [Qfloor]
    round down; the division is exact.) *)
Theorem init_batch_size (e : env) (a : init_args) (dm : DataModule) :
  __init__ e a = inr dm ->
  let d := cuda_device_count e in
  let b := a_batch_size a in
  (1 < d -> batch_size dm = Z.quot b d) /\
  (d <= 1 -> batch_size dm = b) /\
  (0 < b -> 1 < d ->
     batch_size dm = Qfloor (inject_Z b / inject_Z d) /\ batch_size dm = Z.div b d).
Proof.
  intros H d b. apply init_inv in H as [_ ->]. subst d b.
  unfold fresh_module. cbn [batch_size].
  split; [|split].
  - apply effective_batch_size_multi.
  - apply effective_batch_size_single.
  - intros Hb Hd. rewrite <- Zdiv_Qdiv.
    rewrite effective_batch_size_multi by done.
    split; apply Z.quot_div_nonneg; lia.
Qed.

Lemma init_batch_size_witness :
  __init__ ex_env (ex_args "MNIST" 1 (PStr "data")) =
    inr (fresh_module ex_env (ex_args "MNIST" 1 (PStr "data"))) /\
  batch_size (fresh_module ex_env (ex_args "MNIST" 1 (PStr "data"))) = 16.
Proof.
  split; [reflexivity|].
  destruct (init_batch_size ex_env (ex_args "MNIST" 1 (PStr "data"))
              (fresh_module ex_env (ex_args "MNIST" 1 (PStr "data"))) eq_refl)
    as [H _].
  rewrite H; [reflexivity | cbn; lia].
Defined.

(** The dict [self.transforms] is a fixed composition: its train entry is
    the chain ToTensor, Normalize, CenterCropMinXY, Resize(img_size),
    RandomHorizontalFlip(0.5); its validation and test entries are the same
    chain without the final flip; the entries are the same for every
    dataset name (their parameters are [img_channels] and [img_size] only).
    Which entry [setup] attaches to which dataset is settled below. *)
Lemma transforms_fixed_chain (e : env) (a : init_args) (dm : DataModule) :
  __init__ e a = inr dm ->
  let norm := Normalize (py_list_mul (1 # 2)%Q (a_img_channels a))
                        (py_list_mul (1 # 2)%Q (a_img_channels a)) in
  let chain := [ToTensor; norm; CenterCropMinXY; Resize (a_img_size a) true] in
  transforms dm !! "train" = Some (chain ++ [RandomHorizontalFlip (1 # 2)%Q]) /\
  transforms dm !! "val" = Some chain /\
  transforms dm !! "test" = Some chain /\
  (forall k, k <> "train" -> k <> "val" -> k <> "test" -> transforms dm !! k = None) /\
  (forall e' a' dm',
     __init__ e' a' = inr dm' ->
     (a_img_channels a' = a_img_channels a -> a_img_size a' = a_img_size a ->
        transforms dm' = transforms dm) /\
     (forall k, (fmap kind_of) <$> (transforms dm' !! k)
                = (fmap kind_of) <$> (transforms dm !! k))).
Proof.
  intros H norm chain. apply init_inv in H as [_ ->]. cbn [transforms fresh_module].
  rewrite transforms_dict_train, transforms_dict_val, transforms_dict_test.
  split; [done|]. split; [done|]. split; [done|]. split.
  - intros k. apply transforms_dict_other.
  - intros e' a' dm' H. apply init_inv in H as [_ ->]. cbn [transforms fresh_module].
    split; [congruence|]. intros k.
    destruct (decide (k = "train")) as [->|];
      [by rewrite !transforms_dict_train|].
    destruct (decide (k = "val")) as [->|];
      [by rewrite !transforms_dict_val|].
    destruct (decide (k = "test")) as [->|];
      [by rewrite !transforms_dict_test|].
    by rewrite !transforms_dict_other.
Qed.

(** ** [setup], branch by branch *)

Section Setup.
Variables (e : env) (stage : option string) (a : init_args) (log : list dataset).

Let c := a_img_channels a.
Let sz := a_img_size a.
Let dir := a_data_dir a.
Let fm := fresh_module e a.

Lemma setup_MNIST :
  a_name a = "MNIST" ->
  let full := MNIST dir true (Some (train_chain c sz)) None in
  let n := dataset_len e full in
  let num_train := py_int_float (float_of_int n * a_train_val_split a)%float in
  let num_val := n - num_train in
  let tr := Subset full 0 [num_train; num_val] in
  let va := Subset full 1 [num_train; num_val] in
  let te := MNIST dir false (Some (test_chain c sz)) None in
  setup e stage (mkWorld fm log) =
  (inr tt,
   mkWorld (set_test_dataset te (set_val_dataset va (set_train_dataset tr fm)))
     ((log ++ [full]) ++ [te])).
Proof.
  intros Hn. unfold setup. run_M. rewrite Hn. cbn.
  rewrite transforms_dict_train, transforms_dict_test. reflexivity.
Qed.

Lemma setup_LSUN_path p :
  a_name a = "LSUN" -> dir = PPath p ->
  let root := PPath (path_join p "LSUN") in
  let tr := LSUN root ["bedroom_train"]%string (Some (train_chain c sz)) in
  let va := LSUN root ["bedroom_val"]%string (Some (val_chain c sz)) in
  let te := LSUN root ["bedroom_val"]%string (Some (test_chain c sz)) in
  setup e stage (mkWorld fm log) =
  (inr tt,
   mkWorld (set_test_dataset te (set_val_dataset va (set_train_dataset tr fm)))
     (((log ++ [tr]) ++ [va]) ++ [te])).
Proof.
  subst dir. intros Hn Hd. unfold setup. run_M. rewrite Hn, Hd. cbn.
  rewrite transforms_dict_train, transforms_dict_val, transforms_dict_test.
  reflexivity.
Qed.

(** With a [str] for [data_dir], the first [self.data_dir / "LSUN"] raises
    before anything is constructed or assigned. *)
Lemma setup_LSUN_str p :
  a_name a = "LSUN" -> dir = PStr p ->
  exists msg, setup e stage (mkWorld fm log) = (inl (TypeError msg), mkWorld fm log).
Proof.
  subst dir. intros Hn Hd. unfold setup. run_M. rewrite Hn, Hd. cbn. eauto.
Qed.

Lemma setup_CelebA :
  a_name a = "CelebA" ->
  let tr := CelebA dir "train" "attr" (Some (train_chain c sz)) None in
  let va := CelebA dir "valid" "attr" (Some (val_chain c sz)) None in
  let te := CelebA dir "test" "attr" (Some (test_chain c sz)) None in
  setup e stage (mkWorld fm log) =
  (inr tt,
   mkWorld (set_test_dataset te (set_val_dataset va (set_train_dataset tr fm)))
     (((log ++ [tr]) ++ [va]) ++ [te])).
Proof.
  intros Hn. unfold setup. run_M. rewrite Hn. cbn.
  rewrite transforms_dict_train, transforms_dict_val, transforms_dict_test.
  reflexivity.
Qed.

Lemma setup_Flowers102 :
  a_name a = "Flowers102" ->
  let tr := Flowers102 dir "train" (Some (train_chain c sz)) None in
  let va := Flowers102 dir "val" (Some (val_chain c sz)) None in
  let te := Flowers102 dir "test" (Some (test_chain c sz)) None in
  setup e stage (mkWorld fm log) =
  (inr tt,
   mkWorld (set_test_dataset te (set_val_dataset va (set_train_dataset tr fm)))
     (((log ++ [tr]) ++ [va]) ++ [te])).
Proof.
  intros Hn. unfold setup. run_M. rewrite Hn. cbn.
  rewrite transforms_dict_train, transforms_dict_val, transforms_dict_test.
  reflexivity.
Qed.

Lemma setup_SEN12MSCR :
  a_name a = "SEN12MSCR" ->
  let tr := SEN12MSCR dir "train" (Some (train_chain c sz)) in
  let va := SEN12MSCR dir "val" (Some (val_chain c sz)) in
  let te := SEN12MSCR dir "test" (Some (test_chain c sz)) in
  setup e stage (mkWorld fm log) =
  (inr tt,
   mkWorld (set_test_dataset te (set_val_dataset va (set_train_dataset tr fm)))
     (((log ++ [tr]) ++ [va]) ++ [te])).
Proof.
  intros Hn. unfold setup. run_M. rewrite Hn. cbn.
  rewrite transforms_dict_train, transforms_dict_val, transforms_dict_test.
  reflexivity.
Qed.

End Setup.

Lemma not_supported_eqb nm :
  ~ supported nm ->
  (nm =? "MNIST")%string = false /\ (nm =? "LSUN")%string = false /\
  (nm =? "CelebA")%string = false /\ (nm =? "Flowers102")%string = false /\
  (nm =? "SEN12MSCR")%string = false.
Proof.
  unfold supported. intros H.
  repeat split; apply String.eqb_neq; intros ->; apply H; set_solver.
Qed.

(** For a name without a branch, [setup] does nothing, whatever the state. *)
Lemma setup_unsupported e stage w :
  ~ supported (name (self w)) -> setup e stage w = (inr tt, w).
Proof.
  intros H. apply not_supported_eqb in H as (H1 & H2 & H3 & H4 & H5).
  unfold setup. run_M. rewrite H1, H2, H3, H4, H5. by destruct w.
Qed.

(** The name dispatch, away from the [str] root of the LSUN branch: each
    supported name assigns three datasets of its own family. *)
Lemma setup_assigns_family e stage a log :
  supported (a_name a) ->
  (a_name a = "LSUN" -> exists p, a_data_dir a = PPath p) ->
  exists w tr va te,
    setup e stage (mkWorld (fresh_module e a) log) = (inr tt, w) /\
    train_dataset (self w) = Some tr /\ val_dataset (self w) = Some va /\
    test_dataset (self w) = Some te /\
    family_of tr = a_name a /\ family_of va = a_name a /\ family_of te = a_name a.
Proof.
  unfold supported. intros Hs Hp.
  repeat (apply elem_of_cons in Hs as [Hn|Hs]); [..|by apply elem_of_nil in Hs].
  - rewrite (setup_MNIST e stage a log Hn). rewrite Hn. by eexists _, _, _, _.
  - destruct (Hp Hn) as [p Hd].
    rewrite (setup_LSUN_path e stage a log p Hn Hd). rewrite Hn. by eexists _, _, _, _.
  - rewrite (setup_CelebA e stage a log Hn). rewrite Hn. by eexists _, _, _, _.
  - rewrite (setup_Flowers102 e stage a log Hn). rewrite Hn. by eexists _, _, _, _.
  - rewrite (setup_SEN12MSCR e stage a log Hn). rewrite Hn. by eexists _, _, _, _.
Qed.

(** In the MNIST branch the validation part is cut from the dataset built
    with the train chain, so its samples go through the random flip. *)
Lemma setup_MNIST_val_transform e stage a log :
  a_name a = "MNIST" ->
  (val_dataset (self (setup e stage (mkWorld (fresh_module e a) log)).2)) ≫= dataset_transform
  = Some (train_chain (a_img_channels a) (a_img_size a)).
Proof. intros Hn. by rewrite (setup_MNIST e stage a log Hn). Qed.

(** Whatever the name, a dataset that [setup] assigns carries one of the
    chains of the dict. *)
Lemma setup_assigned_transform e stage a log x :
  let d := self (setup e stage (mkWorld (fresh_module e a) log)).2 in
  train_dataset d = Some x \/ val_dataset d = Some x \/ test_dataset d = Some x ->
  exists k, k ∈ ["train"; "val"; "test"]%string /\
            transforms (fresh_module e a) !! k = dataset_transform x.
Proof.
  cbv zeta. cbn [transforms fresh_module].
  destruct (decide (supported (a_name a))) as [Hs|Hs].
  - unfold supported in Hs.
    repeat (apply elem_of_cons in Hs as [Hn|Hs]); [..|by apply elem_of_nil in Hs].
    + rewrite (setup_MNIST e stage a log Hn). cbn.
      intros [[= <-]|[[= <-]|[= <-]]]; cbn;
        [exists "train" | exists "train" | exists "test"];
        rewrite ?transforms_dict_train, ?transforms_dict_test;
        (split; [set_solver|done]).
    + destruct (a_data_dir a) as [p|p] eqn:Hd.
      * destruct (setup_LSUN_str e stage a log p Hn Hd) as [msg ->]. cbn.
        intros [|[|]]; discriminate.
      * rewrite (setup_LSUN_path e stage a log p Hn Hd). cbn.
        intros [[= <-]|[[= <-]|[= <-]]]; cbn;
          [exists "train" | exists "val" | exists "test"];
          rewrite ?transforms_dict_train, ?transforms_dict_val,
            ?transforms_dict_test;
          (split; [set_solver|done]).
    + rewrite (setup_CelebA e stage a log Hn). cbn.
      intros [[= <-]|[[= <-]|[= <-]]]; cbn;
        [exists "train" | exists "val" | exists "test"];
        rewrite ?transforms_dict_train, ?transforms_dict_val,
          ?transforms_dict_test;
        (split; [set_solver|done]).
    + rewrite (setup_Flowers102 e stage a log Hn). cbn.
      intros [[= <-]|[[= <-]|[= <-]]]; cbn;
        [exists "train" | exists "val" | exists "test"];
        rewrite ?transforms_dict_train, ?transforms_dict_val,
          ?transforms_dict_test;
        (split; [set_solver|done]).
    + rewrite (setup_SEN12MSCR e stage a log Hn). cbn.
      intros [[= <-]|[[= <-]|[= <-]]]; cbn;
        [exists "train" | exists "val" | exists "test"];
        rewrite ?transforms_dict_train, ?transforms_dict_val,
          ?transforms_dict_test;
        (split; [set_solver|done]).
  - rewrite setup_unsupported by done. cbn. intros [|[|]]; discriminate.
Qed.

(** C4. The module should apply the train chain to training samples and
    the chain without the random flip to validation and test samples, for
    every dataset name. For MNIST the validation dataset is a part of the
    dataset built with [transforms["train"]]: its samples go through
    [RandomHorizontalFlip(0.5)] and [transforms["val"]] is not used. The
    CelebA branch, like the other three, gives the validation dataset
    [transforms["val"]]. *)
Theorem setup_MNIST_validation_flip :
  let a := ex_args "MNIST" 1 (PStr "data") in
  let dm := fresh_module ex_env a in
  let a' := ex_args "CelebA" 3 (PStr "data") in
  let dm' := fresh_module ex_env a' in
  __init__ ex_env a = inr dm /\
  __init__ ex_env a' = inr dm' /\
  exists w va w' va',
    setup ex_env None (mkWorld dm []) = (inr tt, w) /\
    val_dataset (self w) = Some va /\
    dataset_transform va = transforms dm !! "train" /\
    dataset_transform va <> transforms dm !! "val" /\
    dataset_transform va
      = Some [ToTensor; Normalize [1 # 2]%Q [1 # 2]%Q; CenterCropMinXY;
              Resize 64 true; RandomHorizontalFlip (1 # 2)%Q] /\
    transforms dm !! "val"
      = Some [ToTensor; Normalize [1 # 2]%Q [1 # 2]%Q; CenterCropMinXY;
              Resize 64 true] /\
    setup ex_env None (mkWorld dm' []) = (inr tt, w') /\
    val_dataset (self w') = Some va' /\
    dataset_transform va' = transforms dm' !! "val".
Proof.
  cbv zeta. split; [reflexivity|]. split; [reflexivity|].
  rewrite (setup_MNIST ex_env None (ex_args "MNIST" 1 (PStr "data")) [] eq_refl).
  rewrite (setup_CelebA ex_env None (ex_args "CelebA" 3 (PStr "data")) [] eq_refl).
  cbn [transforms fresh_module].
  rewrite !transforms_dict_train, !transforms_dict_val.
  eexists _, _, _, _. split; [reflexivity|]. split; [reflexivity|].
  split; [reflexivity|]. split; [discriminate|].
  split; [reflexivity|]. split; [reflexivity|].
  split; [reflexivity|]. split; reflexivity.
Qed.

(** C5, as amended. The normalization is the same for every dataset: each
    chain has one [Normalize] step, with mean 0.5 and standard deviation 0.5
    on each of the [img_channels] channels, so its parameters are fixed by
    the channel count alone and any two modules with the same channel count
    normalize identically, whatever their names. *)
Theorem normalization_by_channel_count (e : env) (a : init_args) (dm : DataModule) :
  __init__ e a = inr dm ->
  let half := py_list_mul (1 # 2)%Q (a_img_channels a) in
  (forall k, k ∈ ["train"; "val"; "test"]%string ->
     normalize_params <$> (transforms dm !! k) = Some [(half, half)]) /\
  (forall stage log x,
     let d := self (setup e stage (mkWorld dm log)).2 in
     train_dataset d = Some x \/ val_dataset d = Some x \/ test_dataset d = Some x ->
     normalize_params <$> dataset_transform x = Some [(half, half)]) /\
  (forall e' a' dm',
     __init__ e' a' = inr dm' ->
     a_img_channels a' = a_img_channels a ->
     forall k, normalize_params <$> (transforms dm' !! k)
               = normalize_params <$> (transforms dm !! k)).
Proof.
  intros H half.
  assert (Hk : forall e0 a0 k, k ∈ ["train"; "val"; "test"]%string ->
    normalize_params <$> (transforms (fresh_module e0 a0) !! k)
    = Some [(py_list_mul (1 # 2)%Q (a_img_channels a0),
             py_list_mul (1 # 2)%Q (a_img_channels a0))]).
  { intros e0 a0 k Hin. cbn [transforms fresh_module].
    repeat (apply elem_of_cons in Hin as [->|Hin]);
      [by rewrite transforms_dict_train | by rewrite transforms_dict_val
      | by rewrite transforms_dict_test | by apply elem_of_nil in Hin]. }
  apply init_inv in H as [_ ->]. split; [apply Hk|]. split.
  { intros stage log x d Hx.
    destruct (setup_assigned_transform e stage a log x Hx) as (k & Hin & <-).
    by apply Hk. }
  intros e' a' dm' H Hc k. apply init_inv in H as [_ ->].
  cbn [transforms fresh_module]. rewrite Hc. apply normalize_params_dict.
Qed.

Lemma normalization_by_channel_count_witness :
  __init__ ex_env (ex_args "MNIST" 1 (PStr "data")) =
    inr (fresh_module ex_env (ex_args "MNIST" 1 (PStr "data"))) /\
  normalize_params <$>
    (transforms (fresh_module ex_env (ex_args "MNIST" 1 (PStr "data"))) !! "train")
  = Some [([1 # 2]%Q, [1 # 2]%Q)].
Proof.
  split; [reflexivity|].
  apply (proj1 (normalization_by_channel_count ex_env
                  (ex_args "MNIST" 1 (PStr "data"))
                  (fresh_module ex_env (ex_args "MNIST" 1 (PStr "data"))) eq_refl)).
  constructor.
Defined.

(** C5, as stated, fails: LSUN and CelebA are different datasets, both with
    three channels, and their modules carry the same normalization
    parameters in every chain. *)
Lemma normalization_LSUN_equals_CelebA :
  exists dm1 dm2,
    __init__ ex_env (ex_args "LSUN" 3 (PPath "data")) = inr dm1 /\
    __init__ ex_env (ex_args "CelebA" 3 (PPath "data")) = inr dm2 /\
    name dm1 <> name dm2 /\
    supported (name dm1) /\ supported (name dm2) /\
    (forall k, normalize_params <$> (transforms dm1 !! k)
               = normalize_params <$> (transforms dm2 !! k)) /\
    normalize_params <$> (transforms dm1 !! "train")
      = Some [([1 # 2; 1 # 2; 1 # 2]%Q, [1 # 2; 1 # 2; 1 # 2]%Q)] /\
    (let d1 := self (setup ex_env None (mkWorld dm1 [])).2 in
     let d2 := self (setup ex_env None (mkWorld dm2 [])).2 in
     family_of <$> train_dataset d1 = Some "LSUN" /\
     family_of <$> train_dataset d2 = Some "CelebA" /\
     normalize_params <$> (train_dataset d1 ≫= dataset_transform)
     = normalize_params <$> (train_dataset d2 ≫= dataset_transform) /\
     normalize_params <$> (val_dataset d1 ≫= dataset_transform)
     = normalize_params <$> (val_dataset d2 ≫= dataset_transform) /\
     normalize_params <$> (test_dataset d1 ≫= dataset_transform)
     = normalize_params <$> (test_dataset d2 ≫= dataset_transform)).
Proof.
  exists (fresh_module ex_env (ex_args "LSUN" 3 (PPath "data"))),
         (fresh_module ex_env (ex_args "CelebA" 3 (PPath "data"))).
  split; [reflexivity|]. split; [reflexivity|]. split; [done|].
  split; [unfold supported; cbn; set_solver|].
  split; [unfold supported; cbn; set_solver|].
  split; [reflexivity|].
  split; [cbn [transforms fresh_module]; by rewrite transforms_dict_train|].
  cbv zeta.
  rewrite (setup_LSUN_path ex_env None (ex_args "LSUN" 3 (PPath "data")) []
             "data" eq_refl eq_refl).
  rewrite (setup_CelebA ex_env None (ex_args "CelebA" 3 (PPath "data")) [] eq_refl).
  repeat split.
Qed.

(** C2. [setup] dispatches on the exact dataset name and, for "LSUN",
    should construct the LSUN datasets for train, validation and test.
    With [data_dir] given as a [str], which the signature admits and every
    other branch accepts, the LSUN branch raises [TypeError] at its first
    [self.data_dir / "LSUN"] and leaves the three datasets unassigned. *)
Theorem setup_LSUN_str_data_dir :
  let dm := fresh_module ex_env (ex_args "LSUN" 3 (PStr "data")) in
  __init__ ex_env (ex_args "LSUN" 3 (PStr "data")) = inr dm /\
  setup ex_env None (mkWorld dm []) =
    (inl (TypeError "unsupported operand type(s) for /: 'str' and 'str'"),
     mkWorld dm []) /\
  train_dataset dm = None /\ val_dataset dm = None /\ test_dataset dm = None /\
  fst (train_dataloader ex_env (setup ex_env None (mkWorld dm [])).2)
    = inl (AttributeError "train_dataset").
Proof. cbv zeta. repeat split. Qed.

(** The float product, as Python evaluates it, on the inputs the exact
    product would round differently. *)
Lemma split_product_examples :
  py_int_float (float_of_int 100 * 0x1.28f5c28f5c28fp-2)%float = 28 /\
  py_int_float (float_of_int 60000 * 0x1.6666666666666p-1)%float = 42000 /\
  py_int_float (float_of_int 60000 * 0x1.999999999999ap-1)%float = 48000.
Proof. vm_compute. done. Qed.






(** ** The data loaders *)

(** Each of [train_dataloader], [val_dataloader] and [test_dataloader]
    raises [AttributeError] without its dataset; with it, the method calls
    [DataLoader] on that dataset with the module's [batch_size],
    [num_workers], [pin_memory] and [persistent_workers], and [shuffle=True]
    for the training loader only. It returns the loader unless [DataLoader]
    rejects the arguments. None of them changes the state. *)
Lemma dataloaders_cases (e : env) (w : world) :
  let s := self w in
  let loader d shuffle :=
    mkDataLoader d (batch_size s) (num_workers s) (pin_memory s)
      (persistent_workers s) shuffle in
  let call dl :=
    match DataLoader_raises e dl with
    | Some err => inl err
    | None => inr dl
    end in
  train_dataloader e w =
    (match train_dataset s with
     | Some d => call (loader d (Some true))
     | None => inl (AttributeError "train_dataset")
     end, w) /\
  val_dataloader e w =
    (match val_dataset s with
     | Some d => call (loader d None)
     | None => inl (AttributeError "val_dataset")
     end, w) /\
  test_dataloader e w =
    (match test_dataset s with
     | Some d => call (loader d None)
     | None => inl (AttributeError "test_dataset")
     end, w) /\
  (forall d, shuffles (loader d (Some true)) = true /\
             shuffles (loader d None) = false).
Proof.
  cbv zeta. unfold train_dataloader, val_dataloader, test_dataloader. run_M.
  destruct (train_dataset (self w)) as [tr|], (val_dataset (self w)) as [va|],
    (test_dataset (self w)) as [te|]; cbn;
    repeat match goal with
           | |- context [DataLoader_raises e ?dl] =>
               destruct (DataLoader_raises e dl)
           end; done.
Qed.

(** The checks of [DataLoader] accept positive sizes with workers, or with
    neither workers nor persistence. *)
Lemma torch_DataLoader_checks_None (dl : DataLoader) :
  torch_DataLoader_checks dl = None <->
  0 < dl_batch_size dl /\
  (0 < dl_num_workers dl \/
   (dl_num_workers dl = 0 /\ dl_persistent_workers dl = false)).
Proof.
  unfold torch_DataLoader_checks.
  destruct (Z.ltb_spec (dl_num_workers dl) 0); [split; [done|lia]|].
  destruct (Z.eqb_spec (dl_num_workers dl) 0) as [Hz|Hz],
    (dl_persistent_workers dl); cbn;
    destruct (Z.leb_spec (dl_batch_size dl) 0);
    split; try done; try lia; intros [? [?|[? ?]]]; try lia; done.
Qed.

(** C7. Each data-loader method should return a batch source over its
    dataset, configured with the module's settings, the training loader
    alone shuffling. With the constructor's own defaults ([num_workers=0],
    [persistent_workers=True]) the three datasets are assigned by [setup],
    and each method calls [DataLoader] with the module's settings, which
    [DataLoader] rejects: all three methods raise [ValueError] and no batch
    source is returned. *)
Theorem dataloaders_default_arguments :
  let a := ex_args "CelebA" 3 (PStr "data") in
  let dm := fresh_module ex_env a in
  a_num_workers a = 0 /\ a_persistent_workers a = true /\
  __init__ ex_env a = inr dm /\
  exists w tr va te,
    setup ex_env None (mkWorld dm []) = (inr tt, w) /\
    train_dataset (self w) = Some tr /\
    val_dataset (self w) = Some va /\
    test_dataset (self w) = Some te /\
    DataLoader_raises ex_env (mkDataLoader tr 16 0 true true (Some true))
      = Some (ValueError "persistent_workers option needs num_workers > 0") /\
    train_dataloader ex_env w
      = (inl (ValueError "persistent_workers option needs num_workers > 0"), w) /\
    val_dataloader ex_env w
      = (inl (ValueError "persistent_workers option needs num_workers > 0"), w) /\
    test_dataloader ex_env w
      = (inl (ValueError "persistent_workers option needs num_workers > 0"), w).
Proof.
  cbv zeta. split; [reflexivity|]. split; [reflexivity|]. split; [reflexivity|].
  rewrite (setup_CelebA ex_env None (ex_args "CelebA" 3 (PStr "data")) [] eq_refl).
  eexists _, _, _, _. split; [reflexivity|].
  split; [reflexivity|]. split; [reflexivity|]. split; [reflexivity|].
  split; [reflexivity|]. split; [reflexivity|]. split; reflexivity.
Qed.

(** ** [prepare_data] *)

Lemma downloadable_iff nm :
  downloadable nm <-> nm = "MNIST" \/ nm = "CelebA" \/ nm = "Flowers102".
Proof.
  unfold downloadable. rewrite !elem_of_cons, elem_of_nil. tauto.
Qed.

Lemma prepare_data_MNIST s log :
  name s = "MNIST" ->
  prepare_data (mkWorld s log) =
  (inr tt, mkWorld s (log ++ [MNIST (data_dir s) true None (Some (download s));
                              MNIST (data_dir s) false None (Some (download s))])).
Proof.
  intros Hn. unfold prepare_data. run_M. rewrite Hn. cbn.
  by rewrite <- app_assoc.
Qed.

Lemma prepare_data_CelebA s log :
  name s = "CelebA" ->
  prepare_data (mkWorld s log) =
  (inr tt,
   mkWorld s (log ++ [CelebA (data_dir s) "train" "attr" None (Some (download s));
                      CelebA (data_dir s) "valid" "attr" None (Some (download s));
                      CelebA (data_dir s) "test" "attr" None (Some (download s))])).
Proof.
  intros Hn. unfold prepare_data. run_M. rewrite Hn. cbn. run_M.
  by rewrite <- !app_assoc.
Qed.

Lemma prepare_data_Flowers102 s log :
  name s = "Flowers102" ->
  prepare_data (mkWorld s log) =
  (inr tt,
   mkWorld s (log ++ [Flowers102 (data_dir s) "train" None (Some (download s));
                      Flowers102 (data_dir s) "val" None (Some (download s));
                      Flowers102 (data_dir s) "test" None (Some (download s))])).
Proof.
  intros Hn. unfold prepare_data. run_M. rewrite Hn. cbn. run_M.
  by rewrite <- !app_assoc.
Qed.

Lemma prepare_data_other w :
  ~ downloadable (name (self w)) -> prepare_data w = (inr tt, w).
Proof.
  rewrite downloadable_iff. intros H. unfold prepare_data. run_M.
  destruct (String.eqb_spec (name (self w)) "MNIST"); [tauto|].
  destruct (String.eqb_spec (name (self w)) "CelebA"); [tauto|].
  destruct (String.eqb_spec (name (self w)) "Flowers102"); [tauto|].
  by destruct w.
Qed.

(** C8. [prepare_data] calls dataset constructors, passing the module's
    [download] flag, only when the name is "MNIST", "CelebA" or
    "Flowers102"; for every other name, "LSUN" and "SEN12MSCR" included, it
    does nothing. It never changes the module. *)
Theorem prepare_data_effects (w : world) :
  exists calls,
    prepare_data w = (inr tt, mkWorld (self w) (constructed w ++ calls)) /\
    (calls <> [] <-> downloadable (name (self w))) /\
    (~ downloadable (name (self w)) -> prepare_data w = (inr tt, w)) /\
    Forall (fun d => family_of d = name (self w) /\
                     download_arg d = Some (download (self w))) calls /\
    ~ downloadable "LSUN" /\ ~ downloadable "SEN12MSCR".
Proof.
  assert (HL : ~ downloadable "LSUN") by (rewrite downloadable_iff; intuition discriminate).
  assert (HS : ~ downloadable "SEN12MSCR") by (rewrite downloadable_iff; intuition discriminate).
  destruct (decide (downloadable (name (self w)))) as [Hd|Hd].
  - destruct w as [s log]. cbn [self constructed] in *.
    pose proof Hd as Hd'. apply downloadable_iff in Hd' as [Hn|[Hn|Hn]];
      eexists;
      (split; [first [by apply prepare_data_MNIST | by apply prepare_data_CelebA
                     | by apply prepare_data_Flowers102]|]);
      (split; [done|]); (split; [done|]); (split; [|done]);
      rewrite Hn; repeat constructor.
  - exists []. rewrite app_nil_r.
    split; [destruct w; by apply (prepare_data_other (mkWorld _ _))|].
    split; [done|]. split; [apply prepare_data_other|]. done.
Qed.

(** ** [CenterCropMinXY] *)

Lemma py_slice_length {B} lo n (l : list B) :
  (lo + n <= length l)%nat -> length (py_slice lo (lo + n) l) = n.
Proof.
  intros H. unfold py_slice. rewrite length_take, length_drop. lia.
Qed.

Lemma py_slice_lookup {B} lo n (l : list B) i :
  (i < n)%nat -> py_slice lo (lo + n) l !! i = l !! (lo + i)%nat.
Proof.
  intros H. unfold py_slice.
  replace (lo + n - lo)%nat with n by lia.
  rewrite lookup_take_lt by lia. apply lookup_drop.
Qed.

Lemma py_slice_all {B} (l : list B) : py_slice 0 (length l) l = l.
Proof. unfold py_slice. rewrite drop_0, Nat.sub_0_r. apply firstn_all. Qed.

Lemma slice_len_window n lo m : (lo + m <= n)%nat -> slice_len n lo (lo + m) = m.
Proof. unfold slice_len. lia. Qed.

Section Crop.
Context {A : Type}.
Implicit Types (t : tensor A).

(** A window that lies inside the image gives a well-formed square. *)
Lemma crop_wf t c h w r0 c0 m :
  t_shape t = (c, h, w) -> tensor_wf t ->
  (r0 + m <= h)%nat -> (c0 + m <= w)%nat ->
  tensor_wf (crop t r0 (r0 + m) c0 (c0 + m)) /\
  t_shape (crop t r0 (r0 + m) c0 (c0 + m)) = (c, m, m).
Proof.
  intros Hs Hwf Hr Hc. unfold tensor_wf, crop in *. rewrite Hs in *. cbn.
  destruct Hwf as [Hlen Hall].
  rewrite !slice_len_window by lia. split; [|reflexivity].
  split; [by rewrite length_fmap|].
  apply Forall_fmap. eapply Forall_impl; [exact Hall|].
  intros ch [Hch Hrows]. cbn. split.
  - rewrite length_fmap. apply py_slice_length. lia.
  - apply Forall_fmap.
    assert (Hsub : Forall (fun row => length row = w) (py_slice r0 (r0 + m) ch)).
    { unfold py_slice. apply Forall_take, Forall_drop, Hrows. }
    eapply Forall_impl; [exact Hsub|].
    intros row Hrow. cbn in *. apply py_slice_length. lia.
Qed.

(** Entry [(i, j)] of the window is entry [(r0 + i, c0 + j)] of the image. *)
Lemma crop_entry t r0 c0 m k i j :
  (i < m)%nat -> (j < m)%nat ->
  entry (crop t r0 (r0 + m) c0 (c0 + m)) k i j = entry t k (r0 + i) (c0 + j).
Proof.
  intros Hi Hj. unfold entry, crop. destruct (t_shape t) as [[c h] w]. cbn.
  rewrite list_lookup_fmap.
  destruct (t_data t !! k) as [ch|]; cbn; [|reflexivity].
  rewrite list_lookup_fmap, py_slice_lookup by done.
  destruct (ch !! (r0 + i)%nat) as [row|]; cbn; [|reflexivity].
  by apply py_slice_lookup.
Qed.

(** Every entry inside the shape of a well-formed tensor exists. *)
Lemma entry_is_Some t c h w k i j :
  t_shape t = (c, h, w) -> tensor_wf t ->
  (k < c)%nat -> (i < h)%nat -> (j < w)%nat -> is_Some (entry t k i j).
Proof.
  intros Hs Hwf Hk Hi Hj. unfold tensor_wf in Hwf. rewrite Hs in Hwf.
  destruct Hwf as [Hlen Hall]. unfold entry.
  destruct (lookup_lt_is_Some_2 (t_data t) k) as [ch Hch]; [lia|].
  rewrite Hch. cbn.
  pose proof (Forall_lookup_1 _ _ _ _ Hall Hch) as [Hlch Hrows].
  destruct (lookup_lt_is_Some_2 ch i) as [row Hrow]; [lia|].
  rewrite Hrow. cbn.
  pose proof (Forall_lookup_1 _ _ _ _ Hrows Hrow) as Hlrow.
  apply lookup_lt_is_Some_2. cbn in Hlrow. lia.
Qed.

(** The window that covers the whole image is the image. *)
Lemma crop_full t c h w :
  t_shape t = (c, h, w) -> tensor_wf t -> crop t 0 h 0 w = t.
Proof.
  intros Hs Hwf. unfold tensor_wf, crop in *. rewrite Hs in *.
  destruct Hwf as [_ Hall]. destruct t as [sh d]. cbn in *. subst sh.
  unfold slice_len. rewrite !Nat.min_id, !Nat.min_0_l, !Nat.sub_0_r. f_equal.
  induction Hall as [|ch d' [Hch Hrows] _ IH]; [reflexivity|].
  cbn. f_equal; [|exact IH].
  rewrite <- Hch, py_slice_all. clear Hch.
  induction Hrows as [|row ch' Hrow _ IH']; [reflexivity|].
  cbn. f_equal; [|exact IH']. rewrite <- Hrow. apply py_slice_all.
Qed.

(** C9. For every tensor image of shape (c, h, w), [CenterCropMinXY]
    returns a square image of shape (c, min(h, w), min(h, w)) whose entries
    are the centred window of the input: rows top .. top + min - 1 and
    columns left .. left + min - 1, with top = (h - min) // 2 and
    left = (w - min) // 2. The channels are unchanged and a square image is
    returned as it is. (This holds for h = 0 or w = 0 as well.) *)
Theorem CenterCropMinXY_window t c h w :
  t_shape t = (c, h, w) -> tensor_wf t ->
  let m := Nat.min h w in
  let top := ((h - m) / 2)%nat in
  let left := ((w - m) / 2)%nat in
  exists t',
    CenterCropMinXY_call (Tensor t) = inr (Tensor t') /\
    t_shape t' = (c, m, m) /\ tensor_wf t' /\
    (forall k i j, (i < m)%nat -> (j < m)%nat ->
       entry t' k i j = entry t k (top + i) (left + j)) /\
    (forall k i j, (k < c)%nat -> (i < m)%nat -> (j < m)%nat ->
       is_Some (entry t' k i j)) /\
    (h = w -> t' = t).
Proof.
  intros Hs Hwf m top left.
  assert (Htop : (top + m <= h)%nat).
  { assert ((h - m) / 2 <= h - m)%nat by (apply Nat.Div0.div_le_upper_bound; lia).
    subst top m. lia. }
  assert (Hleft : (left + m <= w)%nat).
  { assert ((w - m) / 2 <= w - m)%nat by (apply Nat.Div0.div_le_upper_bound; lia).
    subst left m. lia. }
  exists (crop t top (top + m) left (left + m)).
  destruct (crop_wf t c h w top left m Hs Hwf Htop Hleft) as [Hwf' Hs'].
  split; [|split; [exact Hs'|split; [exact Hwf'|split; [|split]]]].
  - unfold CenterCropMinXY_call. rewrite Hs. reflexivity.
  - intros k i j Hi Hj. by apply crop_entry.
  - intros k i j Hk Hi Hj. by apply (entry_is_Some _ c m m).
  - intros ->. subst m top left.
    rewrite Nat.min_id, Nat.sub_diag. cbn. by apply (crop_full t c w w).
Qed.

End Crop.

Lemma CenterCropMinXY_window_witness :
  tensor_wf ex_tensor /\
  exists t',
    CenterCropMinXY_call (Tensor ex_tensor) = inr (Tensor t') /\
    t_shape t' = (1, 2, 2)%nat /\
    entry t' 0 1 0 = entry ex_tensor 0 1 1.
Proof.
  assert (Hwf : tensor_wf ex_tensor) by (cbn; repeat constructor).
  split; [exact Hwf|].
  destruct (CenterCropMinXY_window ex_tensor 1 2 4 eq_refl Hwf)
    as (t' & Hcall & Hshape & _ & Hentry & _).
  exists t'. split; [exact Hcall|]. split; [exact Hshape|].
  apply (Hentry 0 1 0)%nat; cbn; lia.
Defined.

(** * Further properties of the module *)

(** ** Helper facts *)

Lemma supported_iff nm :
  supported nm <->
  nm = "MNIST" \/ nm = "LSUN" \/ nm = "CelebA" \/ nm = "Flowers102" \/
  nm = "SEN12MSCR".
Proof. unfold supported. rewrite !elem_of_cons, elem_of_nil. tauto. Qed.

Lemma not_supported_required nm : ~ supported nm -> required_channels nm = 3.
Proof.
  rewrite supported_iff. intros H. unfold required_channels.
  repeat case_decide; tauto.
Qed.

Lemma required_channels_range nm :
  required_channels nm = 1 \/ required_channels nm = 2 \/ required_channels nm = 3.
Proof. unfold required_channels. repeat case_decide; auto. Qed.



Lemma transforms_dict_Some c sz k chain :
  transforms_dict c sz !! k = Some chain ->
  normalize_params chain = [(py_list_mul (1 # 2)%Q c, py_list_mul (1 # 2)%Q c)].
Proof.
  destruct (decide (k = "train")) as [->|];
    [rewrite transforms_dict_train; by intros [= <-]|].
  destruct (decide (k = "val")) as [->|];
    [rewrite transforms_dict_val; by intros [= <-]|].
  destruct (decide (k = "test")) as [->|];
    [rewrite transforms_dict_test; by intros [= <-]|].
  by rewrite transforms_dict_other.
Qed.

(** ** The constructor *)

(** X1. When the channel check fails, the message of the [AssertionError]
    is "MNIST dataset supports `img_channels=1`." for MNIST and
    "<name> dataset supports `img_channels=3`." for every other name, also
    for SEN12MSCR, whose check requires 2 channels. *)
Theorem init_assertion_message (e : env) (a : init_args) :
  a_img_channels a <> required_channels (a_name a) ->
  __init__ e a =
  inl (AssertionError
         (if decide (a_name a = "MNIST")
          then "MNIST dataset supports `img_channels=1`."
          else a_name a +:+ " dataset supports `img_channels=3`.")).
Proof.
  rewrite required_channels_eqb.
  unfold __init__, init_body, sanity_check. run_M.
  destruct (String.eqb_spec (a_name a) "MNIST") as [Hn|Hn].
  - rewrite decide_True by done.
    destruct (Z.eqb_spec (a_img_channels a) 1); [done|]. reflexivity.
  - rewrite decide_False by done.
    destruct (String.eqb_spec (a_name a) "SEN12MSCR") as [Hn'|Hn'].
    + destruct (Z.eqb_spec (a_img_channels a) 2); [done|]. cbn. by rewrite Hn'.
    + destruct (Z.eqb_spec (a_img_channels a) 3); [done|]. reflexivity.
Qed.

Lemma init_assertion_message_witness :
  a_img_channels (ex_args "SEN12MSCR" 3 (PStr "data"))
    <> required_channels (a_name (ex_args "SEN12MSCR" 3 (PStr "data"))) /\
  __init__ ex_env (ex_args "SEN12MSCR" 3 (PStr "data"))
  = inl (AssertionError "SEN12MSCR dataset supports `img_channels=3`.").
Proof.
  assert (H : a_img_channels (ex_args "SEN12MSCR" 3 (PStr "data"))
                <> required_channels (a_name (ex_args "SEN12MSCR" 3 (PStr "data"))))
    by (vm_compute; discriminate).
  split; [exact H|].
  exact (init_assertion_message ex_env (ex_args "SEN12MSCR" 3 (PStr "data")) H).
Defined.

(** X2. Every constructed module has 1, 2 or 3 channels, and in each of
    its chains the mean and the standard deviation of [Normalize] have
    exactly [img_channels] entries, so neither is empty. *)
Theorem init_channels_invariant (e : env) (a : init_args) (dm : DataModule) :
  __init__ e a = inr dm ->
  (img_channels dm = 1 \/ img_channels dm = 2 \/ img_channels dm = 3) /\
  (forall k chain mean std,
     transforms dm !! k = Some chain ->
     (mean, std) ∈ normalize_params chain ->
     Z.of_nat (length mean) = img_channels dm /\
     Z.of_nat (length std) = img_channels dm /\
     mean <> [] /\ std <> []).
Proof.
  intros H. apply init_inv in H as [Hc ->].
  cbn [img_channels transforms fresh_module].
  pose proof (required_channels_range (a_name a)) as Hr. rewrite <- Hc in Hr.
  split; [exact Hr|].
  intros k chain mean std Hk Hin.
  rewrite (transforms_dict_Some _ _ _ _ Hk) in Hin.
  apply list_elem_of_singleton in Hin as [= -> ->].
  unfold py_list_mul. rewrite length_replicate.
  assert (Hnn : replicate (Z.to_nat (a_img_channels a)) (1 # 2)%Q <> []).
  { intros Hnil. apply (f_equal length) in Hnil.
    rewrite length_replicate in Hnil. cbn in Hnil. lia. }
  repeat split; try lia; exact Hnn.
Qed.

Lemma init_channels_invariant_witness :
  __init__ ex_env (ex_args "SEN12MSCR" 2 (PStr "data")) =
    inr (fresh_module ex_env (ex_args "SEN12MSCR" 2 (PStr "data"))) /\
  (img_channels (fresh_module ex_env (ex_args "SEN12MSCR" 2 (PStr "data"))) = 1 \/
   img_channels (fresh_module ex_env (ex_args "SEN12MSCR" 2 (PStr "data"))) = 2 \/
   img_channels (fresh_module ex_env (ex_args "SEN12MSCR" 2 (PStr "data"))) = 3).
Proof.
  split; [reflexivity|].
  exact (proj1 (init_channels_invariant ex_env
                  (ex_args "SEN12MSCR" 2 (PStr "data"))
                  (fresh_module ex_env (ex_args "SEN12MSCR" 2 (PStr "data")))
                  eq_refl)).
Defined.

(** X3. With more than one device and the division taken exactly, the
    stored batch size times the device count is within one device count of
    the requested batch size, on the side of zero: it never exceeds a
    non-negative request, and a request smaller than the device count is
    stored as 0. *)
Theorem init_batch_size_bounds (e : env) (a : init_args) (dm : DataModule) :
  __init__ e a = inr dm ->
  let d := cuda_device_count e in
  let b := a_batch_size a in
  1 < d ->
  (0 <= b -> d * batch_size dm <= b < d * batch_size dm + d) /\
  (0 <= b < d -> batch_size dm = 0) /\
  (b <= 0 -> b <= d * batch_size dm < b + d) /\
  Z.abs (batch_size dm) <= Z.abs b.
Proof.
  intros H d b Hd. apply init_inv in H as [_ ->]. subst d b.
  unfold fresh_module. cbn [batch_size].
  rewrite effective_batch_size_multi by done.
  set (d := cuda_device_count e) in *. set (b := a_batch_size a).
  clearbody d b.
  pose proof (Z.quot_rem' b d) as Hqr.
  pose proof (Z.rem_bound_abs b d ltac:(lia)) as Habs.
  assert (Hpos : 0 <= b -> 0 <= Z.rem b d) by (apply Z.rem_nonneg; lia).
  assert (Hneg : b <= 0 -> Z.rem b d <= 0) by (apply Z.rem_nonpos; lia).
  split; [|split; [|split]].
  - intros Hb. specialize (Hpos Hb). lia.
  - intros Hb. apply Z.quot_small. lia.
  - intros Hb. specialize (Hneg Hb). lia.
  - destruct (Z.le_ge_cases 0 b) as [Hb|Hb].
    + specialize (Hpos Hb). nia.
    + specialize (Hneg Hb). nia.
Qed.

Lemma init_batch_size_bounds_witness :
  __init__ (mkEnv 8 (fun _ => 0) torch_DataLoader_checks) (ex_args "CelebA" 3 (PStr "data")) =
    inr (fresh_module (mkEnv 8 (fun _ => 0) torch_DataLoader_checks) (ex_args "CelebA" 3 (PStr "data"))) /\
  8 * batch_size (fresh_module (mkEnv 8 (fun _ => 0) torch_DataLoader_checks)
                    (ex_args "CelebA" 3 (PStr "data"))) <= 32.
Proof.
  split; [reflexivity|].
  destruct (init_batch_size_bounds (mkEnv 8 (fun _ => 0) torch_DataLoader_checks)
              (ex_args "CelebA" 3 (PStr "data"))
              (fresh_module (mkEnv 8 (fun _ => 0) torch_DataLoader_checks)
                 (ex_args "CelebA" 3 (PStr "data"))) eq_refl)
    as [H _]; [cbn; lia|].
  apply H. cbn. lia.
Defined.

(** ** [setup] *)



(** X6. In every state, and also when it raises, [setup] changes no
    attribute other than the three datasets and only adds to the
    constructors called. *)
Theorem setup_frame (e : env) (stage : option string) (w : world) :
  same_config (self w) (self (setup e stage w).2) /\
  (exists calls, constructed (setup e stage w).2 = constructed w ++ calls).
Proof.
  destruct w as [s log]. unfold setup, same_config. run_M.
  destruct (transforms s !! "train") eqn:Htr, (transforms s !! "val") eqn:Hva,
    (transforms s !! "test") eqn:Hte; destruct (data_dir s) eqn:Hd;
  setup_branches s; cbn; rewrite <- ?app_assoc;
  (split; [repeat split; congruence|]);
  first [by eexists | by exists []; rewrite app_nil_r].
Qed.

(** X7. For every name other than "MNIST" and in every state, running
    [setup] a second time (with any stage) returns what the first run
    returned and leaves the module as the first run left it. *)
Theorem setup_twice (e : env) (stage stage' : option string) (w : world) :
  name (self w) <> "MNIST" ->
  let w1 := (setup e stage w).2 in
  (setup e stage' w1).1 = (setup e stage w).1 /\
  self (setup e stage' w1).2 = self w1.
Proof.
  intros Hn. cbv zeta. destruct w as [s log]. cbn in Hn.
  apply String.eqb_neq in Hn.
  unfold setup. run_M. rewrite Hn.
  destruct (name s =? "LSUN")%string eqn:E2;
    [destruct (data_dir s) eqn:Hd|
     destruct (name s =? "CelebA")%string eqn:E3;
      [|destruct (name s =? "Flowers102")%string eqn:E4;
        [|destruct (name s =? "SEN12MSCR")%string eqn:E5]]];
  cbn; rewrite ?Hn, ?E2, ?E3, ?E4, ?E5, ?Hd; cbn; try done;
  (destruct (transforms s !! "train") eqn:Htr; cbn;
   rewrite ?Hn, ?E2, ?E3, ?E4, ?E5, ?Hd, ?Htr; cbn; rewrite ?Htr; cbn; try done);
  (destruct (transforms s !! "val") eqn:Hva; cbn;
   rewrite ?Hn, ?E2, ?E3, ?E4, ?E5, ?Hd, ?Htr, ?Hva; cbn; rewrite ?Htr, ?Hva; cbn;
   try done);
  (destruct (transforms s !! "test") eqn:Hte; cbn;
   rewrite ?Hn, ?E2, ?E3, ?E4, ?E5, ?Hd, ?Htr, ?Hva, ?Hte; cbn;
   rewrite ?Htr, ?Hva, ?Hte; cbn; done).
Qed.

Lemma setup_twice_witness :
  name (self (mkWorld (fresh_module ex_env (ex_args "CelebA" 3 (PStr "data"))) []))
    <> "MNIST" /\
  self (setup ex_env (Some "test")
          (setup ex_env (Some "fit")
             (mkWorld (fresh_module ex_env (ex_args "CelebA" 3 (PStr "data"))) [])).2).2
  = self (setup ex_env (Some "fit")
            (mkWorld (fresh_module ex_env (ex_args "CelebA" 3 (PStr "data"))) [])).2.
Proof.
  assert (H : name (self (mkWorld (fresh_module ex_env
                                     (ex_args "CelebA" 3 (PStr "data"))) []))
              <> "MNIST") by (cbn; discriminate).
  split; [exact H|].
  exact (proj2 (setup_twice ex_env (Some "fit") (Some "test")
                  (mkWorld (fresh_module ex_env (ex_args "CelebA" 3 (PStr "data"))) [])
                  H)).
Defined.

(** X8. In the MNIST branch, for a length below 2^53: a
    [train_val_split] equal to 1.0 gives the whole dataset to the train
    part and an empty validation part, and a [train_val_split] equal to
    0.0 the reverse; the float product is exact at both ends. *)
Theorem setup_MNIST_split_extremes (e : env) (stage : option string)
    (a : init_args) (dm : DataModule) (log : list dataset) :
  __init__ e a = inr dm ->
  a_name a = "MNIST" ->
  let full := MNIST (a_data_dir a) true
                (Some (train_chain (a_img_channels a) (a_img_size a))) None in
  let n := dataset_len e full in
  let d := self (setup e stage (mkWorld dm log)).2 in
  0 <= n < 2 ^ 53 ->
  ((a_train_val_split a =? 1)%float = true ->
     train_dataset d = Some (Subset full 0 [n; 0]) /\
     val_dataset d = Some (Subset full 1 [n; 0])) /\
  ((a_train_val_split a =? 0)%float = true ->
     train_dataset d = Some (Subset full 0 [0; n]) /\
     val_dataset d = Some (Subset full 1 [0; n])).
Proof.
  intros H Hn full n d Hlen. apply init_inv in H as [_ ->]. subst d.
  rewrite (setup_MNIST e stage a log Hn). cbv zeta.
  change (MNIST (a_data_dir a) true
            (Some (train_chain (a_img_channels a) (a_img_size a))) None) with full.
  change (dataset_len e full) with n.
  cbn [self train_dataset val_dataset set_train_dataset set_val_dataset
       set_test_dataset snd].
  split.
  - intros Hs. rewrite (float_mul_one n _ Hlen Hs). by rewrite Z.sub_diag.
  - intros Hs. rewrite (float_mul_zero n _ Hlen Hs). by rewrite Z.sub_0_r.
Qed.

Lemma setup_MNIST_split_extremes_witness :
  __init__ ex_env (ex_args_split 1) = inr (fresh_module ex_env (ex_args_split 1)) /\
  (a_train_val_split (ex_args_split 1) =? 1)%float = true /\
  exists full,
    val_dataset
      (self (setup ex_env None (mkWorld (fresh_module ex_env (ex_args_split 1)) [])).2)
    = Some (Subset full 1 [60000; 0]).
Proof.
  assert (Hs : (a_train_val_split (ex_args_split 1) =? 1)%float = true)
    by reflexivity.
  assert (Hlen : 0 <= 60000 < 2 ^ 53) by (split; [done|reflexivity]).
  split; [reflexivity|]. split; [exact Hs|].
  eexists.
  exact (proj2 (proj1
    (setup_MNIST_split_extremes ex_env None (ex_args_split 1)
       (fresh_module ex_env (ex_args_split 1)) [] eq_refl eq_refl Hlen) Hs)).
Defined.

(** ** The methods in sequence *)

(** X9. A name without a branch is accepted by the constructor when
    [img_channels] is 3; [prepare_data] and [setup] then return without
    doing anything, and each data-loader method raises [AttributeError]. *)
Theorem unsupported_name_lifecycle (e : env) (stage : option string)
    (a : init_args) :
  ~ supported (a_name a) ->
  a_img_channels a = 3 ->
  exists dm,
    __init__ e a = inr dm /\
    prepare_data (mkWorld dm []) = (inr tt, mkWorld dm []) /\
    setup e stage (mkWorld dm []) = (inr tt, mkWorld dm []) /\
    train_dataloader e (mkWorld dm [])
      = (inl (AttributeError "train_dataset"), mkWorld dm []) /\
    val_dataloader e (mkWorld dm [])
      = (inl (AttributeError "val_dataset"), mkWorld dm []) /\
    test_dataloader e (mkWorld dm [])
      = (inl (AttributeError "test_dataset"), mkWorld dm []).
Proof.
  intros Hs Hc. exists (fresh_module e a).
  destruct (init_cases e a) as [[_ Hi]|[Hne _]];
    [|by rewrite (not_supported_required _ Hs) in Hne].
  split; [exact Hi|].
  split.
  { apply prepare_data_other. cbn. rewrite downloadable_iff.
    rewrite supported_iff in Hs. tauto. }
  split; [by apply setup_unsupported|].
  done.
Qed.

Lemma unsupported_name_lifecycle_witness :
  ~ supported (a_name (ex_args "CIFAR10" 3 (PStr "data"))) /\
  exists dm,
    __init__ ex_env (ex_args "CIFAR10" 3 (PStr "data")) = inr dm /\
    setup ex_env None (mkWorld dm []) = (inr tt, mkWorld dm []).
Proof.
  assert (Hs : ~ supported (a_name (ex_args "CIFAR10" 3 (PStr "data")))).
  { rewrite supported_iff. cbn. intuition discriminate. }
  split; [exact Hs|].
  destruct (unsupported_name_lifecycle ex_env None
              (ex_args "CIFAR10" 3 (PStr "data")) Hs eq_refl)
    as (dm & Hi & _ & Hsetup & _).
  exists dm. split; [exact Hi | exact Hsetup].
Defined.

(** X10. After [setup] has returned normally on a constructed module with
    a supported name, and with arguments that [DataLoader] accepts, the
    three data-loader methods return in sequence: each loader wraps a
    dataset of the named family with the stored batch size and the worker
    settings given to the constructor, and no loader changes the state. *)
Theorem dataloaders_after_setup (e : env) (stage : option string)
    (a : init_args) (dm : DataModule) (w : world) :
  __init__ e a = inr dm ->
  supported (a_name a) ->
  setup e stage (mkWorld dm []) = (inr tt, w) ->
  let loader d shuffle :=
    mkDataLoader d (effective_batch_size e (a_batch_size a)) (a_num_workers a)
      (a_pin_memory a) (a_persistent_workers a) shuffle in
  (forall d shuffle, DataLoader_raises e (loader d shuffle) = None) ->
  exists tr va te,
    train_dataloader e w = (inr (loader tr (Some true)), w) /\
    val_dataloader e w = (inr (loader va None), w) /\
    test_dataloader e w = (inr (loader te None), w) /\
    family_of tr = a_name a /\ family_of va = a_name a /\ family_of te = a_name a.
Proof.
  intros H Hs Hsetup loader Hok. apply init_inv in H as [_ ->].
  assert (Hrun : forall tr va te,
    train_dataset (self w) = Some tr -> val_dataset (self w) = Some va ->
    test_dataset (self w) = Some te ->
    batch_size (self w) = effective_batch_size e (a_batch_size a) ->
    num_workers (self w) = a_num_workers a ->
    pin_memory (self w) = a_pin_memory a ->
    persistent_workers (self w) = a_persistent_workers a ->
    family_of tr = a_name a -> family_of va = a_name a ->
    family_of te = a_name a ->
    train_dataloader e w = (inr (loader tr (Some true)), w) /\
    val_dataloader e w = (inr (loader va None), w) /\
    test_dataloader e w = (inr (loader te None), w) /\
    family_of tr = a_name a /\ family_of va = a_name a /\ family_of te = a_name a).
  { intros tr va te Htr Hva Hte Hb Hw Hpm Hpw Hf1 Hf2 Hf3.
    destruct (dataloaders_cases e w) as (H1 & H2 & H3 & _).
    rewrite H1, H2, H3, Htr, Hva, Hte, Hb, Hw, Hpm, Hpw.
    fold (loader tr (Some true)). fold (loader va None). fold (loader te None).
    by rewrite !Hok. }
  destruct (proj1 (supported_iff _) Hs) as [Hn|[Hn|[Hn|[Hn|Hn]]]].
  - rewrite (setup_MNIST e stage a [] Hn) in Hsetup. injection Hsetup as <-.
    eexists _, _, _. eapply Hrun; first [reflexivity | by rewrite Hn].
  - destruct (a_data_dir a) as [p|p] eqn:Hd.
    + destruct (setup_LSUN_str e stage a [] p Hn Hd) as [msg Hraise].
      rewrite Hraise in Hsetup. discriminate.
    + rewrite (setup_LSUN_path e stage a [] p Hn Hd) in Hsetup.
      injection Hsetup as <-.
      eexists _, _, _. eapply Hrun; first [reflexivity | by rewrite Hn].
  - rewrite (setup_CelebA e stage a [] Hn) in Hsetup. injection Hsetup as <-.
    eexists _, _, _. eapply Hrun; first [reflexivity | by rewrite Hn].
  - rewrite (setup_Flowers102 e stage a [] Hn) in Hsetup. injection Hsetup as <-.
    eexists _, _, _. eapply Hrun; first [reflexivity | by rewrite Hn].
  - rewrite (setup_SEN12MSCR e stage a [] Hn) in Hsetup. injection Hsetup as <-.
    eexists _, _, _. eapply Hrun; first [reflexivity | by rewrite Hn].
Qed.

Lemma dataloaders_after_setup_witness :
  let a := ex_args_workers "Flowers102" 3 (PStr "data") in
  let dm := fresh_module ex_env a in
  let w := (setup ex_env None (mkWorld dm [])).2 in
  __init__ ex_env a = inr dm /\
  supported (a_name a) /\
  setup ex_env None (mkWorld dm []) = (inr tt, w) /\
  exists tr,
    train_dataloader ex_env w = (inr (mkDataLoader tr 16 4 true true (Some true)), w).
Proof.
  cbv zeta.
  assert (Hs : supported (a_name (ex_args_workers "Flowers102" 3 (PStr "data"))))
    by (apply supported_iff; cbn; auto).
  split; [reflexivity|]. split; [exact Hs|]. split; [reflexivity|].
  destruct (dataloaders_after_setup ex_env None
              (ex_args_workers "Flowers102" 3 (PStr "data"))
              (fresh_module ex_env (ex_args_workers "Flowers102" 3 (PStr "data")))
              (setup ex_env None
                 (mkWorld (fresh_module ex_env
                             (ex_args_workers "Flowers102" 3 (PStr "data"))) [])).2
              eq_refl Hs eq_refl)
    as (tr & va & te & Htr & _).
  - intros d shuffle. reflexivity.
  - exists tr. exact Htr.
Defined.

(** X11. For MNIST, CelebA and Flowers102, every dataset [setup]
    constructs reads, from the same root, a split that [prepare_data]
    constructed with [download=self.download]; [setup] itself passes no
    [download] argument. *)
Theorem prepare_data_covers_setup (e : env) (stage : option string)
    (a : init_args) (dm : DataModule) :
  __init__ e a = inr dm ->
  downloadable (a_name a) ->
  let prepared := constructed (prepare_data (mkWorld dm [])).2 in
  let built := constructed (setup e stage (mkWorld dm [])).2 in
  built <> [] /\
  Forall (fun d =>
            download_arg d = None /\
            exists d', d' ∈ prepared /\
                       download_arg d' = Some (a_download a) /\
                       underlying_split d' = underlying_split d /\
                       dataset_root d' = dataset_root d) built.
Proof.
  intros H Hd prepared built. apply init_inv in H as [_ ->].
  subst prepared built.
  destruct (proj1 (downloadable_iff _) Hd) as [Hn|[Hn|Hn]].
  - rewrite (setup_MNIST e stage a [] Hn),
      (prepare_data_MNIST (fresh_module e a) [] Hn). cbn.
    split; [done|].
    repeat (apply Forall_cons; split; [covered_by_prepared|]).
    by apply Forall_nil.
  - rewrite (setup_CelebA e stage a [] Hn),
      (prepare_data_CelebA (fresh_module e a) [] Hn). cbn.
    split; [done|].
    repeat (apply Forall_cons; split; [covered_by_prepared|]).
    by apply Forall_nil.
  - rewrite (setup_Flowers102 e stage a [] Hn),
      (prepare_data_Flowers102 (fresh_module e a) [] Hn). cbn.
    split; [done|].
    repeat (apply Forall_cons; split; [covered_by_prepared|]).
    by apply Forall_nil.
Qed.

Lemma prepare_data_covers_setup_witness :
  __init__ ex_env (ex_args "MNIST" 1 (PStr "data")) =
    inr (fresh_module ex_env (ex_args "MNIST" 1 (PStr "data"))) /\
  downloadable (a_name (ex_args "MNIST" 1 (PStr "data"))) /\
  constructed
    (setup ex_env None
       (mkWorld (fresh_module ex_env (ex_args "MNIST" 1 (PStr "data"))) [])).2
  <> [].
Proof.
  assert (Hd : downloadable (a_name (ex_args "MNIST" 1 (PStr "data"))))
    by (apply downloadable_iff; cbn; auto).
  split; [reflexivity|]. split; [exact Hd|].
  exact (proj1 (prepare_data_covers_setup ex_env None
                  (ex_args "MNIST" 1 (PStr "data"))
                  (fresh_module ex_env (ex_args "MNIST" 1 (PStr "data")))
                  eq_refl Hd)).
Defined.

(** X12. For SEN12MSCR, and for LSUN with a [Path] root, [prepare_data]
    constructs nothing while [setup] constructs three datasets, each
    without a [download] argument: the data must already be on disk. *)
Theorem setup_reads_unprepared_data (e : env) (stage : option string)
    (a : init_args) (dm : DataModule) :
  __init__ e a = inr dm ->
  a_name a = "SEN12MSCR" \/ (a_name a = "LSUN" /\ exists p, a_data_dir a = PPath p) ->
  constructed (prepare_data (mkWorld dm [])).2 = [] /\
  exists tr va te,
    constructed (setup e stage (mkWorld dm [])).2 = [tr; va; te] /\
    download_arg tr = None /\ download_arg va = None /\ download_arg te = None.
Proof.
  intros H Hn. apply init_inv in H as [_ ->].
  destruct Hn as [Hn|[Hn [p Hd]]].
  - rewrite prepare_data_other
      by (cbn; rewrite Hn, downloadable_iff; intuition discriminate).
    split; [done|].
    rewrite (setup_SEN12MSCR e stage a [] Hn). by eexists _, _, _.
  - rewrite prepare_data_other
      by (cbn; rewrite Hn, downloadable_iff; intuition discriminate).
    split; [done|].
    rewrite (setup_LSUN_path e stage a [] p Hn Hd). by eexists _, _, _.
Qed.

Lemma setup_reads_unprepared_data_witness :
  __init__ ex_env (ex_args "SEN12MSCR" 2 (PStr "data")) =
    inr (fresh_module ex_env (ex_args "SEN12MSCR" 2 (PStr "data"))) /\
  constructed
    (prepare_data
       (mkWorld (fresh_module ex_env (ex_args "SEN12MSCR" 2 (PStr "data"))) [])).2
  = [].
Proof.
  split; [reflexivity|].
  exact (proj1 (setup_reads_unprepared_data ex_env None
                  (ex_args "SEN12MSCR" 2 (PStr "data"))
                  (fresh_module ex_env (ex_args "SEN12MSCR" 2 (PStr "data")))
                  eq_refl (or_introl eq_refl))).
Defined.

(** ** [CenterCropMinXY], continued *)

Section CropMore.
Context {A : Type}.

(** X14. [CenterCropMinXY] is idempotent: applied to its own output it
    returns that output unchanged. *)
Theorem CenterCropMinXY_idempotent (t t' : tensor A) :
  tensor_wf t ->
  CenterCropMinXY_call (Tensor t) = inr (Tensor t') ->
  CenterCropMinXY_call (Tensor t') = inr (Tensor t').
Proof.
  intros Hwf Hcall. destruct (t_shape t) as [[c h] w] eqn:Hs.
  assert (Ht : t' = crop t ((h - Nat.min h w) / 2)
                          ((h - Nat.min h w) / 2 + Nat.min h w)
                          ((w - Nat.min h w) / 2)
                          ((w - Nat.min h w) / 2 + Nat.min h w)).
  { unfold CenterCropMinXY_call in Hcall. rewrite Hs in Hcall. congruence. }
  subst t'. clear Hcall.
  set (m := Nat.min h w) in *.
  set (top := ((h - m) / 2)%nat). set (left := ((w - m) / 2)%nat).
  assert (Htop : (top + m <= h)%nat).
  { assert ((h - m) / 2 <= h - m)%nat by (apply Nat.Div0.div_le_upper_bound; lia).
    subst top m. lia. }
  assert (Hleft : (left + m <= w)%nat).
  { assert ((w - m) / 2 <= w - m)%nat by (apply Nat.Div0.div_le_upper_bound; lia).
    subst left m. lia. }
  destruct (crop_wf t c h w top left m Hs Hwf Htop Hleft) as [Hwf' Hs'].
  unfold CenterCropMinXY_call. rewrite Hs'.
  rewrite Nat.min_id, Nat.sub_diag. cbn [Nat.div Nat.divmod fst Nat.add].
  do 2 f_equal. by apply (crop_full _ c m m).
Qed.

(** X15. The crop is centred: the rows cut above and below the window
    differ by at most one, the extra row being cut below, and likewise the
    columns cut left and right, the extra column being cut on the right;
    along the shorter side nothing is cut. *)
Theorem CenterCropMinXY_margins (t : tensor A) (c h w : nat) :
  t_shape t = (c, h, w) ->
  exists top left,
    let m := Nat.min h w in
    let bottom := (h - (top + m))%nat in
    let right := (w - (left + m))%nat in
    CenterCropMinXY_call (Tensor t)
      = inr (Tensor (crop t top (top + m) left (left + m))) /\
    (top + m + bottom = h)%nat /\ (left + m + right = w)%nat /\
    (top <= bottom <= top + 1)%nat /\ (left <= right <= left + 1)%nat /\
    (h <= w -> top = 0 /\ bottom = 0)%nat /\
    (w <= h -> left = 0 /\ right = 0)%nat.
Proof.
  intros Hs.
  exists ((h - Nat.min h w) / 2)%nat, ((w - Nat.min h w) / 2)%nat. cbv zeta.
  split; [unfold CenterCropMinXY_call; by rewrite Hs|].
  pose proof (Nat.div_mod_eq (h - Nat.min h w) 2).
  pose proof (Nat.div_mod_eq (w - Nat.min h w) 2).
  pose proof (Nat.mod_upper_bound (h - Nat.min h w) 2).
  pose proof (Nat.mod_upper_bound (w - Nat.min h w) 2).
  repeat split; lia.
Qed.

End CropMore.

Lemma CenterCropMinXY_idempotent_witness :
  tensor_wf ex_tensor /\
  CenterCropMinXY_call (Tensor (mkTensor (1, 2, 2)%nat [[[2; 3]; [6; 7]]]))
  = inr (Tensor (mkTensor (1, 2, 2)%nat [[[2; 3]; [6; 7]]])).
Proof.
  assert (Hwf : tensor_wf ex_tensor) by (cbn; repeat constructor).
  split; [exact Hwf|].
  exact (CenterCropMinXY_idempotent ex_tensor
           (mkTensor (1, 2, 2)%nat [[[2; 3]; [6; 7]]]) Hwf eq_refl).
Defined.

Lemma CenterCropMinXY_margins_witness :
  t_shape ex_tensor = (1, 2, 4)%nat /\
  exists top left,
    CenterCropMinXY_call (Tensor ex_tensor)
      = inr (Tensor (crop ex_tensor top (top + 2) left (left + 2))) /\
    (left <= 4 - (left + 2) <= left + 1)%nat.
Proof.
  split; [reflexivity|].
  destruct (CenterCropMinXY_margins ex_tensor 1 2 4 eq_refl)
    as (top & left & Hcall & _ & _ & _ & Hlr & _).
  exists top, left. split; [exact Hcall | exact Hlr].
Defined.
